(** * Notes API (backend - fastAPI/main.py): a shallow embedding

    The backend is a FastAPI application over one SQLite table,

      notes(id INTEGER PRIMARY KEY AUTOINCREMENT, title TEXT NOT NULL,
            content TEXT NOT NULL, created_at TIMESTAMP, updated_at TIMESTAMP)

    Every handler opens a connection, runs one to three SQL statements and
    closes it.  The embedding threads the database explicitly through the
    handlers; the wall clock ([datetime.now()]) is an input of the two
    handlers that read it.

    Layout of the file.  Definitions come first:
    - [StrOrder]   byte-wise order of strings (SQLite's BINARY collation)
    - [Datetime]   naive datetimes and [isoformat]
    - [Json]       parsed request bodies
    - [Sqlite]     the notes table and the five statements the handlers run
    - the pydantic models, the handlers, the routes and runs of requests
    - the vocabulary the properties are stated in.
    Then the facts: about the string order and [isoformat], about the
    statements and the handlers, and the properties of the API by topic
    (creation, update, identifiers, timestamps, listing). *)

From Stdlib Require Import ZArith List String Ascii Bool Lia.
From Stdlib Require Import Sorting.Permutation Sorting.Sorted.
Import ListNotations.

Local Open Scope string_scope.
Local Open Scope Z_scope.

(** Lexicographic chaining of comparisons: the first one that is not [Eq]
    decides. *)
Definition lex (c d : comparison) : comparison :=
  match c with
  | Eq => d
  | _ => c
  end.

(* ------------------------------------------------------------------ *)
(** ** Byte-wise comparison of strings *)

(** SQLite compares TEXT values with [memcmp] (collation BINARY); on byte
    strings this is [String.compare], with [String.leb] and [String.ltb] as
    its tests. *)
Module StrOrder.

Definition le (s1 s2 : string) : Prop := String.leb s1 s2 = true.
Definition lt (s1 s2 : string) : Prop := String.ltb s1 s2 = true.

End StrOrder.

(* ------------------------------------------------------------------ *)
(** ** Naive datetimes and their ISO format *)

(** [datetime.now()] returns a naive local datetime; the handlers keep only
    its [isoformat()] string.  A [datetime] object always has its fields in
    the ranges of [valid] (the constructor raises [ValueError] otherwise;
    [MINYEAR = 1], [MAXYEAR = 9999]), so every field fills exactly the
    width that [isoformat] pads it to. *)
Module Datetime.

Record datetime : Set := mkDatetime {
  year : Z;
  month : Z;
  day : Z;
  hour : Z;
  minute : Z;
  second : Z;
  microsecond : Z
}.

Definition valid (d : datetime) : Prop :=
  1 <= year d <= 9999 /\ 1 <= month d <= 12 /\ 1 <= day d <= 31 /\
  0 <= hour d < 24 /\ 0 <= minute d < 60 /\ 0 <= second d < 60 /\
  0 <= microsecond d < 1000000.

(** Python compares naive datetimes field by field, most significant
    first. *)
Definition compare (a b : datetime) : comparison :=
  lex (year a ?= year b)
 (lex (month a ?= month b)
 (lex (day a ?= day b)
 (lex (hour a ?= hour b)
 (lex (minute a ?= minute b)
 (lex (second a ?= second b)
      (microsecond a ?= microsecond b)))))).

Definition leb (a b : datetime) : bool :=
  match compare a b with Gt => false | _ => true end.

Definition ltb (a b : datetime) : bool :=
  match compare a b with Lt => true | _ => false end.

(** One decimal digit as a character. *)
Definition digit (d : Z) : ascii := ascii_of_N (48 + Z.to_N d).

(** [zpad w n] is [n] printed with the format [%0wd], for [0 <= n < 10^w]. *)
Fixpoint zpad (w : nat) (n : Z) : string :=
  match w with
  | O => EmptyString
  | S w' => String (digit (n / 10 ^ Z.of_nat w')) (zpad w' (n mod 10 ^ Z.of_nat w'))
  end.

(** The fractional part is printed only when it is not zero. *)
Definition fraction (us : Z) : string :=
  if us =? 0 then "" else "." ++ zpad 6 us.

(** [datetime.isoformat()] with the default separator and timespec:
    [YYYY-MM-DDTHH:MM:SS] followed by [.ffffff] when [microsecond] is not 0. *)
Definition isoformat (d : datetime) : string :=
  zpad 4 (year d) ++ "-" ++ zpad 2 (month d) ++ "-" ++ zpad 2 (day d) ++ "T" ++
  zpad 2 (hour d) ++ ":" ++ zpad 2 (minute d) ++ ":" ++ zpad 2 (second d) ++
  fraction (microsecond d).

End Datetime.

(* ------------------------------------------------------------------ *)
(** ** Request bodies *)

(** A request body after [json.loads].  Numbers keep their lexeme: no
    handler looks inside one.  An object is the list of its members in
    document order; [json.loads] builds a [dict] from them, so a repeated key
    keeps its last value. *)
Module Json.

#[local] Unset Elimination Schemes.

Inductive json : Type :=
| JNull
| JBool (b : bool)
| JNum (lexeme : string)
| JStr (s : string)
| JArr (items : list json)
| JObj (members : list (string * json)).

#[local] Set Elimination Schemes.

(** [d.get(key)] on the dict built from [members]. *)
Definition dict_get (key : string) (members : list (string * json)) : option json :=
  option_map snd (find (fun kv => String.eqb (fst kv) key) (rev members)).

(** The members without those named [key]. *)
Definition omit (key : string) (members : list (string * json)) : list (string * json) :=
  filter (fun kv => negb (String.eqb (fst kv) key)) members.

End Json.

(* ------------------------------------------------------------------ *)
(** ** The notes table *)

Module Sqlite.

(** A row of [notes].  [title] and [content] are TEXT NOT NULL.  The two
    timestamp columns are declared TIMESTAMP (numeric affinity); the values
    bound to them are ISO strings, which are not numeric literals and are
    therefore stored and compared as TEXT. *)
Record Note : Set := mkNote {
  id : Z;
  title : string;
  content : string;
  created_at : string;
  updated_at : string
}.

(** The database file once the table exists: the rows in rowid order (the
    order of a table scan) and the [sqlite_sequence] entry that
    AUTOINCREMENT keeps for the table, the largest rowid ever handed out. *)
Record database : Type := mkDatabase {
  rows : list Note;
  seq : Z
}.

(** Rowids, and the integers that can be bound to a statement, are signed
    64-bit. *)
Definition min_int64 : Z := - 2 ^ 63.
Definition max_int64 : Z := 2 ^ 63 - 1.

Definition fits_int64 (z : Z) : bool := (min_int64 <=? z) && (z <=? max_int64).

(** A Python [str] is held as the bytes of its code points in UTF-8, with a
    surrogate code point (U+D800 to U+DFFF, which [json.loads] produces from
    an unpaired escape such as ["\ud800"]) as the three bytes that scheme
    gives it: ED, then a byte from A0 to BF, then a continuation byte.  ED
    is only ever a lead byte, so a string holds a surrogate exactly when an
    ED is followed by a byte from A0 to BF. *)
Fixpoint has_surrogate (s : string) : bool :=
  match s with
  | EmptyString => false
  | String lead rest =>
      match rest with
      | EmptyString => false
      | String next _ =>
          ((N_of_ascii lead =? 237)%N &&
           (160 <=? N_of_ascii next)%N && (N_of_ascii next <=? 191)%N)
          || has_surrogate rest
      end
  end.

(** A [str] bound to a statement is encoded to UTF-8; a surrogate cannot be
    encoded, and [cursor.execute] raises [UnicodeEncodeError] before the
    statement runs. *)
Definition binds_as_text (s : string) : bool := negb (has_surrogate s).

(** [CREATE TABLE IF NOT EXISTS notes (...)]: an existing table is left as
    it is; otherwise the table starts empty. *)
Definition CREATE_TABLE_IF_NOT_EXISTS (file : option database) : database :=
  match file with
  | Some db => db
  | None => mkDatabase [] 0
  end.

Definition largest_rowid (l : list Note) : Z := fold_right Z.max 0 (map id l).

(** [INSERT INTO notes (title, content, created_at, updated_at) VALUES (?, ?, ?, ?)]
    on an AUTOINCREMENT key: the new rowid is one more than the largest
    rowid that ever existed in the table; when that is the largest 64-bit
    integer the statement fails with SQLITE_FULL ([None]).  On success the
    result carries [cursor.lastrowid]. *)
Definition INSERT (title content created_at updated_at : string) (db : database)
  : option (Z * database) :=
  let largest := Z.max (seq db) (largest_rowid (rows db)) in
  if max_int64 <=? largest then None
  else
    let rowid := largest + 1 in
    Some (rowid,
          mkDatabase (rows db ++ [mkNote rowid title content created_at updated_at])%list
                     rowid).

(** [SELECT * FROM notes WHERE id = ?] followed by [fetchone()]. *)
Definition SELECT_WHERE_id (note_id : Z) (db : database) : option Note :=
  find (fun n => id n =? note_id) (rows db).

(** [UPDATE notes SET title = ?, content = ?, updated_at = ? WHERE id = ?]. *)
Definition UPDATE_WHERE_id (title content updated_at : string) (note_id : Z)
    (db : database) : database :=
  mkDatabase
    (map (fun n => if id n =? note_id
                   then mkNote (id n) title content (created_at n) updated_at
                   else n)
         (rows db))
    (seq db).

(** [DELETE FROM notes WHERE id = ?]. *)
Definition DELETE_WHERE_id (note_id : Z) (db : database) : database :=
  mkDatabase (filter (fun n => negb (id n =? note_id)) (rows db)) (seq db).

(** [ORDER BY updated_at DESC]: [n] goes in front of the first row that is
    not more recent than it.  Rows are fed in scan order, so rows with equal
    keys keep their scan order. *)
Fixpoint insert_desc (n : Note) (sorted : list Note) : list Note :=
  match sorted with
  | [] => [n]
  | m :: rest =>
      if String.leb (updated_at m) (updated_at n) then n :: sorted
      else m :: insert_desc n rest
  end.

(** [SELECT * FROM notes ORDER BY updated_at DESC] followed by [fetchall()]. *)
Definition SELECT_ORDER_BY_updated_at_DESC (db : database) : list Note :=
  fold_right insert_desc [] (rows db).

End Sqlite.

Import Datetime Json Sqlite.

(* ------------------------------------------------------------------ *)
(** ** Pydantic models *)

(** [class NoteCreate(BaseModel)]: [title: str], [content: str]. *)
Record NoteCreate : Set := mkNoteCreate {
  NoteCreate_title : string;
  NoteCreate_content : string
}.

(** [class NoteUpdate(BaseModel)]: [title: Optional[str] = None],
    [content: Optional[str] = None]. *)
Record NoteUpdate : Set := mkNoteUpdate {
  NoteUpdate_title : option string;
  NoteUpdate_content : option string
}.

(** Validation of one field of type [str] (pydantic 2: only a JSON string
    is a [str]; numbers are not coerced).  [None] is a validation error. *)
Definition required_str (field : option json) : option string :=
  match field with
  | Some (JStr s) => Some s
  | _ => None
  end.

(** Validation of one field of type [Optional[str] = None]: an absent
    member takes the default [None], a JSON [null] is [None], a string is
    itself; anything else is a validation error (the outer [None]). *)
Definition optional_str (field : option json) : option (option string) :=
  match field with
  | None => Some None
  | Some JNull => Some None
  | Some (JStr s) => Some (Some s)
  | Some _ => None
  end.

(** Validation of a request body against [NoteCreate].  Members the model
    does not declare are ignored. *)
Definition validate_NoteCreate (body : json) : option NoteCreate :=
  match body with
  | JObj members =>
      match required_str (dict_get "title" members),
            required_str (dict_get "content" members) with
      | Some t, Some c => Some (mkNoteCreate t c)
      | _, _ => None
      end
  | _ => None
  end.

(** Validation of a request body against [NoteUpdate]. *)
Definition validate_NoteUpdate (body : json) : option NoteUpdate :=
  match body with
  | JObj members =>
      match optional_str (dict_get "title" members),
            optional_str (dict_get "content" members) with
      | Some t, Some c => Some (mkNoteUpdate t c)
      | _, _ => None
      end
  | _ => None
  end.

(* ------------------------------------------------------------------ *)
(** ** Responses *)

(** What a request is answered with.  The first three are 200 responses
    carrying the handler's return value; [HTTPException] is what a handler
    raises itself; [RequestValidationError] is FastAPI's 422 for a body
    that does not validate; [InternalServerError] is the 500 of an
    exception nobody catches. *)
Inductive response : Type :=
| JSON_Note (note : Note)
| JSON_Notes (notes : list Note)
| JSON_dict (items : list (string * string))
| HTTPException (status_code : Z) (detail : string)
| RequestValidationError
| InternalServerError.

Definition status_code (r : response) : Z :=
  match r with
  | JSON_Note _ | JSON_Notes _ | JSON_dict _ => 200
  | HTTPException code _ => code
  | RequestValidationError => 422
  | InternalServerError => 500
  end.

(* ------------------------------------------------------------------ *)
(** ** Handlers *)

(** [init_db()], run by [startup_event]. *)
Definition init_db (file : option database) : database :=
  CREATE_TABLE_IF_NOT_EXISTS file.

(** [GET /]. *)
Definition root : response :=
  JSON_dict [("message", "Notes API is running!"); ("status", "healthy")].

(** [GET /notes]. *)
Definition get_notes (db : database) : response :=
  JSON_Notes (SELECT_ORDER_BY_updated_at_DESC db).

(** [GET /notes/{note_id}].  Binding an integer outside the 64-bit range
    raises [OverflowError] in the [sqlite3] module. *)
Definition get_note (note_id : Z) (db : database) : response :=
  if negb (fits_int64 note_id) then InternalServerError
  else
    match SELECT_WHERE_id note_id db with
    | None => HTTPException 404 "Note not found"
    | Some note => JSON_Note note
    end.

(** A field of the request as a bound parameter: a field that is [None]
    is not bound (the value read from the table is bound in its place, and
    that one was decoded from UTF-8 when it was fetched). *)
Definition supplied_binds (field : option string) : bool :=
  match field with
  | Some s => binds_as_text s
  | None => true
  end.

(** [POST /notes], once the body has validated as [NoteCreate].  [clock] is
    what [datetime.now()] returns.  [cursor.execute] raises when the title
    or the content cannot be bound, and when the INSERT fails; nothing has
    been written then.  The returned note is read back from the table;
    [dict(None)] would raise. *)
Definition create_note (clock : datetime) (note : NoteCreate) (db : database)
  : response * database :=
  let now := isoformat clock in
  if negb (binds_as_text (NoteCreate_title note) &&
           binds_as_text (NoteCreate_content note))
  then (InternalServerError, db)
  else
    match INSERT (NoteCreate_title note) (NoteCreate_content note) now now db with
    | None => (InternalServerError, db)
    | Some (note_id, db') =>
        match SELECT_WHERE_id note_id db' with
        | Some created_note => (JSON_Note created_note, db')
        | None => (InternalServerError, db')
        end
    end.

(** [PUT /notes/{note_id}], once the body has validated as [NoteUpdate].
    The note is looked up first; then the UPDATE binds the new title and
    content, and [cursor.execute] raises when a string of the request cannot
    be bound, the row being left as it was. *)
Definition update_note (clock : datetime) (note_id : Z) (note_update : NoteUpdate)
    (db : database) : response * database :=
  if negb (fits_int64 note_id) then (InternalServerError, db)
  else
    match SELECT_WHERE_id note_id db with
    | None => (HTTPException 404 "Note not found", db)
    | Some existing_note =>
        let new_title :=
          match NoteUpdate_title note_update with
          | Some t => t
          | None => title existing_note
          end in
        let new_content :=
          match NoteUpdate_content note_update with
          | Some c => c
          | None => content existing_note
          end in
        let new_updated_at := isoformat clock in
        if negb (supplied_binds (NoteUpdate_title note_update) &&
                 supplied_binds (NoteUpdate_content note_update))
        then (InternalServerError, db)
        else
          let db' := UPDATE_WHERE_id new_title new_content new_updated_at note_id db in
          match SELECT_WHERE_id note_id db' with
          | Some updated_note => (JSON_Note updated_note, db')
          | None => (InternalServerError, db')
          end
    end.

(** [DELETE /notes/{note_id}]. *)
Definition delete_note (note_id : Z) (db : database) : response * database :=
  if negb (fits_int64 note_id) then (InternalServerError, db)
  else
    match SELECT_WHERE_id note_id db with
    | None => (HTTPException 404 "Note not found", db)
    | Some _ =>
        (JSON_dict [("message", "Note deleted successfully")],
         DELETE_WHERE_id note_id db)
    end.

(* ------------------------------------------------------------------ *)
(** ** The application *)

(** The requests the routes accept.  A path parameter has already parsed
    as an integer; a body has already parsed as JSON. *)
Inductive request : Type :=
| GET_root
| GET_notes
| GET_note (note_id : Z)
| POST_notes (body : json)
| PUT_note (note_id : Z) (body : json)
| DELETE_note (note_id : Z).

(** One request served at wall-clock reading [clock]: FastAPI validates the
    body against the handler's model, answers 422 without calling the
    handler when it does not validate, and calls the handler otherwise. *)
Definition serve (clock : datetime) (req : request) (db : database)
  : response * database :=
  match req with
  | GET_root => (root, db)
  | GET_notes => (get_notes db, db)
  | GET_note note_id => (get_note note_id db, db)
  | POST_notes body =>
      match validate_NoteCreate body with
      | None => (RequestValidationError, db)
      | Some note => create_note clock note db
      end
  | PUT_note note_id body =>
      match validate_NoteUpdate body with
      | None => (RequestValidationError, db)
      | Some note_update => update_note clock note_id note_update db
      end
  | DELETE_note note_id => delete_note note_id db
  end.

(** A run: requests served one after the other, each with the clock
    reading it is served at.  The result pairs every request with its
    response. *)
Fixpoint run (trace : list (datetime * request)) (db : database)
  : list (request * response) * database :=
  match trace with
  | [] => ([], db)
  | (clock, req) :: rest =>
      let '(resp, db') := serve clock req db in
      let '(log, db'') := run rest db' in
      ((req, resp) :: log, db'')
  end.

(** The database of a fresh deployment. *)
Definition fresh : database := init_db None.

(** The states a deployment can be in. *)
Definition reachable (db : database) : Prop :=
  exists trace, snd (run trace fresh) = db.


(* ------------------------------------------------------------------ *)
(** ** Vocabulary of the properties *)

(** The string a body carries under [key], if it is an object that has a
    string there. *)
Definition str_member (key : string) (body : json) : option string :=
  match body with
  | JObj members =>
      match dict_get key members with
      | Some (JStr s) => Some s
      | _ => None
      end
  | _ => None
  end.

(** The value [update_note] writes for a field: the supplied one, or the
    stored one when none is supplied. *)
Definition merged (supplied : option string) (stored : string) : string :=
  match supplied with
  | Some s => s
  | None => stored
  end.

(** The id a log entry hands out: that of the note a POST was answered
    with. *)
Definition created_id (entry : request * response) : option Z :=
  match entry with
  | (POST_notes _, JSON_Note n) => Some (id n)
  | _ => None
  end.

(** The ids handed out along a log, oldest first. *)
Fixpoint assigned_ids (log : list (request * response)) : list Z :=
  match log with
  | [] => []
  | entry :: rest =>
      match created_id entry with
      | Some i => i :: assigned_ids rest
      | None => assigned_ids rest
      end
  end.

(** The key sequence is ahead of the table: no row has an id above [seq],
    ids are positive, and no two rows share one. *)
Definition keyed (db : database) : Prop :=
  0 <= seq db /\
  Forall (fun n => 1 <= id n <= seq db) (rows db) /\
  NoDup (map id (rows db)).

(** A note is gone for good: its id is within the 64-bit range and not
    above [seq], and no row has it. *)
Definition gone (note_id : Z) (db : database) : Prop :=
  keyed db /\ fits_int64 note_id = true /\ note_id <= seq db /\
  SELECT_WHERE_id note_id db = None.

(** The clock readings of a run never go back, and each is a datetime. *)
Definition monotone_clock (trace : list (datetime * request)) : Prop :=
  Forall valid (map fst trace) /\
  Sorted (fun a b => Datetime.leb a b = true) (map fst trace).

(** The two timestamps of a note are the ISO strings of two datetimes, the
    first not after the second. *)
Definition created_before_updated (n : Note) : Prop :=
  exists c u,
    valid c /\ valid u /\
    created_at n = isoformat c /\ updated_at n = isoformat u /\
    Datetime.leb c u = true.

(** Every row was created at a reading no later than the one it was last
    updated at, and last updated no later than [last]. *)
Definition stamped (last : datetime) (db : database) : Prop :=
  Forall (fun n => exists c u,
            valid c /\ valid u /\
            created_at n = isoformat c /\ updated_at n = isoformat u /\
            Datetime.leb c u = true /\ Datetime.leb u last = true)
         (rows db).

(** Most recently updated first. *)
Definition recent_first (l : list Note) : Prop :=
  StronglySorted (fun a b => StrOrder.le (updated_at b) (updated_at a)) l.

(** The body of a POST with the given title and content. *)
Definition note_body (t c : string) : json :=
  JObj [("title", JStr t); ("content", JStr c)].

(** The requests that only read the table. *)
Definition reads_only (req : request) : bool :=
  match req with
  | GET_root | GET_notes | GET_note _ => true
  | POST_notes _ | PUT_note _ _ | DELETE_note _ => false
  end.

(** The requests that write to the note [note_id]: a PUT or a DELETE of
    that id. *)
Definition targets (req : request) (note_id : Z) : bool :=
  match req with
  | PUT_note i _ | DELETE_note i => i =? note_id
  | _ => false
  end.


(** The ids [first], [first + 1], ... , [count] of them. *)
Definition consecutive_ids (first : Z) (count : nat) : list Z :=
  map (fun k => first + Z.of_nat k) (List.seq 0 count).

(* ------------------------------------------------------------------ *)
(** ** Facts about the byte-wise order *)

Module StrOrderFacts.
Import StrOrder.

Lemma ascii_compare_refl (a : ascii) : Ascii.compare a a = Eq.
Proof. unfold Ascii.compare. apply N.compare_refl. Qed.

Lemma compare_refl (s : string) : String.compare s s = Eq.
Proof.
  induction s as [|a s IH]; simpl; [reflexivity|].
  now rewrite ascii_compare_refl.
Qed.

Lemma compare_cons (a b : ascii) (s t : string) :
  String.compare (String a s) (String b t)
  = lex (Ascii.compare a b) (String.compare s t).
Proof. simpl. unfold lex. now destruct (Ascii.compare a b). Qed.

(** Comparing two concatenations whose heads have the same length compares
    the heads first and the tails on a tie. *)
Lemma compare_app (s1 s2 t1 t2 : string) :
  String.length s1 = String.length s2 ->
  String.compare (s1 ++ t1) (s2 ++ t2)
  = lex (String.compare s1 s2) (String.compare t1 t2).
Proof.
  revert s2. induction s1 as [|a s1 IH]; intros [|b s2] Hlen;
    simpl in Hlen; try discriminate.
  - reflexivity.
  - change (String a s1 ++ t1) with (String a (s1 ++ t1)).
    change (String b s2 ++ t2) with (String b (s2 ++ t2)).
    rewrite !compare_cons, IH by congruence.
    now destruct (Ascii.compare a b).
Qed.

Lemma le_refl (s : string) : le s s.
Proof. unfold le, String.leb. now rewrite compare_refl. Qed.

Lemma ascii_compare_trans_lt (a b c : ascii) :
  Ascii.compare a b = Lt -> Ascii.compare b c = Lt -> Ascii.compare a c = Lt.
Proof.
  unfold Ascii.compare. rewrite !N.compare_lt_iff. apply N.lt_trans.
Qed.

Lemma compare_lt_trans (s1 s2 s3 : string) :
  String.compare s1 s2 = Lt -> String.compare s2 s3 = Lt ->
  String.compare s1 s3 = Lt.
Proof.
  revert s2 s3. induction s1 as [|a s1 IH]; intros [|b s2] [|c s3];
    simpl; try congruence.
  destruct (Ascii.compare a b) eqn:Hab; try discriminate;
    destruct (Ascii.compare b c) eqn:Hbc; try discriminate; intros H12 H23.
  - apply Ascii.compare_eq_iff in Hab, Hbc. subst.
    rewrite ascii_compare_refl. eauto.
  - apply Ascii.compare_eq_iff in Hab. subst. now rewrite Hbc.
  - apply Ascii.compare_eq_iff in Hbc. subst. now rewrite Hab.
  - now rewrite (ascii_compare_trans_lt a b c).
Qed.

Lemma le_cases (s1 s2 : string) :
  le s1 s2 <-> String.compare s1 s2 = Lt \/ s1 = s2.
Proof.
  unfold le, String.leb. split.
  - destruct (String.compare s1 s2) eqn:H; try discriminate; intros _.
    + right. now apply String.compare_eq_iff.
    + now left.
  - intros [H | ->]; [now rewrite H | now rewrite compare_refl].
Qed.

Lemma le_trans (s1 s2 s3 : string) : le s1 s2 -> le s2 s3 -> le s1 s3.
Proof.
  rewrite !le_cases. intros [H12 | ->] [H23 | ->]; auto.
  left. eapply compare_lt_trans; eauto.
Qed.

Lemma lt_le_incl (s1 s2 : string) : lt s1 s2 -> le s1 s2.
Proof.
  unfold lt, le, String.ltb, String.leb.
  now destruct (String.compare s1 s2).
Qed.

Lemma leb_false_lt (s1 s2 : string) : String.leb s1 s2 = false -> lt s2 s1.
Proof.
  unfold lt, String.leb, String.ltb. rewrite (String.compare_antisym s2 s1).
  now destruct (String.compare s1 s2).
Qed.

Lemma lt_not_le (s1 s2 : string) : lt s1 s2 -> String.leb s2 s1 = false.
Proof.
  unfold lt, String.leb, String.ltb. rewrite (String.compare_antisym s2 s1).
  now destruct (String.compare s1 s2).
Qed.

End StrOrderFacts.

(* ------------------------------------------------------------------ *)
(** ** Facts about [isoformat] *)

Module DatetimeFacts.

Example isoformat_with_fraction :
  isoformat (mkDatetime 2024 3 9 7 5 0 1200) = "2024-03-09T07:05:00.001200".
Proof. reflexivity. Qed.

Example isoformat_whole_second :
  isoformat (mkDatetime 987 12 31 23 59 59 0) = "0987-12-31T23:59:59".
Proof. reflexivity. Qed.

Lemma zpad_length (w : nat) (n : Z) : String.length (zpad w n) = w.
Proof. revert n. induction w as [|w IH]; intros n; simpl; [|rewrite IH]; reflexivity. Qed.

Lemma digit_compare (x y : Z) :
  0 <= x < 10 -> 0 <= y < 10 ->
  Ascii.compare (digit x) (digit y) = (x ?= y).
Proof.
  intros Hx Hy. unfold Ascii.compare, digit.
  rewrite !N_ascii_embedding by lia.
  destruct (Z.compare_spec x y);
    [apply N.compare_eq_iff|apply N.compare_lt_iff|apply N.compare_gt_iff]; lia.
Qed.

(** Splitting a number at a power of ten splits its comparison. *)
Lemma compare_divmod (p a b : Z) :
  0 < p ->
  (a ?= b) = lex (a / p ?= b / p) (a mod p ?= b mod p).
Proof.
  intros Hp.
  pose proof (Z.div_mod a p ltac:(lia)) as Ha.
  pose proof (Z.div_mod b p ltac:(lia)) as Hb.
  pose proof (Z.mod_pos_bound a p Hp) as Ra.
  pose proof (Z.mod_pos_bound b p Hp) as Rb.
  unfold lex.
  destruct (Z.compare_spec (a / p) (b / p)) as [Hq|Hq|Hq].
  - destruct (Z.compare_spec (a mod p) (b mod p));
      [apply Z.compare_eq_iff|apply Z.compare_lt_iff|apply Z.compare_gt_iff]; nia.
  - apply Z.compare_lt_iff. nia.
  - apply Z.compare_gt_iff. nia.
Qed.

Lemma zpad_compare (w : nat) (a b : Z) :
  0 <= a < 10 ^ Z.of_nat w -> 0 <= b < 10 ^ Z.of_nat w ->
  String.compare (zpad w a) (zpad w b) = (a ?= b).
Proof.
  revert a b. induction w as [|w IH]; intros a b Ha Hb.
  - simpl in *. symmetry. apply Z.compare_eq_iff. lia.
  - cbn [zpad]. set (p := 10 ^ Z.of_nat w) in *.
    assert (Hp : 0 < p) by (apply Z.pow_pos_nonneg; lia).
    assert (Hpow : 10 ^ Z.of_nat (S w) = 10 * p).
    { rewrite Nat2Z.inj_succ, Z.pow_succ_r by lia. reflexivity. }
    rewrite Hpow in Ha, Hb.
    rewrite StrOrderFacts.compare_cons.
    rewrite digit_compare, IH.
    + symmetry. now apply compare_divmod.
    + now apply Z.mod_pos_bound.
    + now apply Z.mod_pos_bound.
    + split; [apply Z.div_pos; lia | apply Z.div_lt_upper_bound; lia].
    + split; [apply Z.div_pos; lia | apply Z.div_lt_upper_bound; lia].
Qed.

Lemma fraction_compare (a b : Z) :
  0 <= a < 1000000 -> 0 <= b < 1000000 ->
  String.compare (fraction a) (fraction b) = (a ?= b).
Proof.
  intros Ha Hb. unfold fraction.
  destruct (Z.eqb_spec a 0) as [->|Na], (Z.eqb_spec b 0) as [->|Nb].
  - reflexivity.
  - transitivity Lt; [reflexivity | symmetry; apply Z.compare_lt_iff; lia].
  - transitivity Gt; [reflexivity | symmetry; apply Z.compare_gt_iff; lia].
  - change ("." ++ zpad 6 a) with (String "."%char (zpad 6 a)).
    change ("." ++ zpad 6 b) with (String "."%char (zpad 6 b)).
    rewrite StrOrderFacts.compare_cons, StrOrderFacts.ascii_compare_refl. cbn [lex].
    apply zpad_compare; simpl; lia.
Qed.

(** The ISO strings of two datetimes compare byte-wise exactly as the
    datetimes compare: the text order SQLite sorts by is the time order. *)
Lemma isoformat_compare (a b : datetime) :
  valid a -> valid b ->
  String.compare (isoformat a) (isoformat b) = compare a b.
Proof.
  intros (Hy & Hm & Hd & Hh & Hmi & Hs & Hus) (Hy' & Hm' & Hd' & Hh' & Hmi' & Hs' & Hus').
  unfold isoformat, compare.
  repeat (rewrite StrOrderFacts.compare_app by (rewrite ?zpad_length; reflexivity);
          rewrite ?StrOrderFacts.compare_refl; cbn [lex];
          rewrite ?zpad_compare by (simpl; lia)).
  rewrite fraction_compare by lia.
  reflexivity.
Qed.

Lemma isoformat_leb (a b : datetime) :
  valid a -> valid b -> String.leb (isoformat a) (isoformat b) = leb a b.
Proof. intros Ha Hb. unfold String.leb, leb. now rewrite isoformat_compare. Qed.

Lemma isoformat_ltb (a b : datetime) :
  valid a -> valid b -> String.ltb (isoformat a) (isoformat b) = ltb a b.
Proof. intros Ha Hb. unfold String.ltb, ltb. now rewrite isoformat_compare. Qed.

End DatetimeFacts.

(* ------------------------------------------------------------------ *)
(** ** Facts about the statements *)

Section TableFacts.

Lemma dict_get_omit_same (key : string) (members : list (string * json)) :
  dict_get key (omit key members) = None.
Proof.
  unfold dict_get, omit.
  destruct (find _ (rev (filter _ members))) as [kv|] eqn:Hfind; [|reflexivity].
  apply find_some in Hfind. destruct Hfind as [Hin Hkey].
  apply in_rev, filter_In in Hin. destruct Hin as [_ Hneg].
  rewrite Hkey in Hneg. discriminate.
Qed.

Lemma find_filter_agree {A : Type} (p q : A -> bool) (l : list A) :
  (forall x, p x = true -> q x = true) ->
  find p (filter q l) = find p l.
Proof.
  intros Hpq. induction l as [|x l IH]; simpl; [reflexivity|].
  destruct (q x) eqn:Hq; simpl.
  - now rewrite IH.
  - destruct (p x) eqn:Hp; [|exact IH].
    apply Hpq in Hp. congruence.
Qed.

Lemma filter_rev {A : Type} (q : A -> bool) (l : list A) :
  filter q (rev l) = rev (filter q l).
Proof.
  induction l as [|x l IH]; simpl; [reflexivity|].
  rewrite filter_app, IH. simpl. destruct (q x); simpl; [reflexivity|].
  now rewrite app_nil_r.
Qed.

Lemma dict_get_omit_other (key other : string) (members : list (string * json)) :
  other <> key ->
  dict_get other (omit key members) = dict_get other members.
Proof.
  intros Hne. unfold dict_get, omit. f_equal.
  rewrite <- filter_rev. apply find_filter_agree.
  intros [k v]; simpl. intros Hk. apply String.eqb_eq in Hk. subst k.
  apply negb_true_iff, String.eqb_neq. exact Hne.
Qed.

Lemma id_le_largest_rowid (l : list Note) (n : Note) :
  In n l -> id n <= largest_rowid l.
Proof.
  unfold largest_rowid. induction l as [|m l IH]; simpl; [tauto|].
  intros [-> | Hin]; [lia | specialize (IH Hin); lia].
Qed.

Lemma largest_rowid_nonneg (l : list Note) : 0 <= largest_rowid l.
Proof. unfold largest_rowid. induction l as [|m l IH]; simpl; lia. Qed.

Lemma largest_rowid_le (l : list Note) (bound : Z) :
  0 <= bound -> Forall (fun n => id n <= bound) l -> largest_rowid l <= bound.
Proof.
  unfold largest_rowid. intros Hb. induction 1 as [|m l Hm _ IH]; simpl; lia.
Qed.

Lemma SELECT_Some (note_id : Z) (db : database) (n : Note) :
  SELECT_WHERE_id note_id db = Some n -> In n (rows db) /\ id n = note_id.
Proof.
  unfold SELECT_WHERE_id. intros H. apply find_some in H.
  destruct H as [Hin Hid]. split; [exact Hin | now apply Z.eqb_eq].
Qed.

Lemma SELECT_None (note_id : Z) (db : database) :
  SELECT_WHERE_id note_id db = None <->
  Forall (fun n => id n <> note_id) (rows db).
Proof.
  unfold SELECT_WHERE_id. split.
  - intros H. apply Forall_forall. intros n Hin Hid.
    apply (find_none _ _ H) in Hin. apply Z.eqb_neq in Hin. contradiction.
  - intros H. induction H as [|n l Hn _ IH]; simpl; [reflexivity|].
    apply Z.eqb_neq in Hn. now rewrite Hn.
Qed.

(** The row an [UPDATE] leaves behind, read back by the same id. *)
Lemma SELECT_UPDATE_same (t c u : string) (note_id : Z) (db : database) (n : Note) :
  SELECT_WHERE_id note_id db = Some n ->
  SELECT_WHERE_id note_id (UPDATE_WHERE_id t c u note_id db)
  = Some (mkNote (id n) t c (created_at n) u).
Proof.
  unfold SELECT_WHERE_id, UPDATE_WHERE_id. simpl.
  induction (rows db) as [|m l IH]; simpl; [discriminate|].
  destruct (id m =? note_id) eqn:Hm; simpl.
  - rewrite Hm. now intros [= ->].
  - rewrite Hm. exact IH.
Qed.

Lemma SELECT_UPDATE_other (t c u : string) (note_id other : Z) (db : database) :
  other <> note_id ->
  SELECT_WHERE_id other (UPDATE_WHERE_id t c u note_id db)
  = SELECT_WHERE_id other db.
Proof.
  intros Hne. unfold SELECT_WHERE_id, UPDATE_WHERE_id. simpl.
  induction (rows db) as [|m l IH]; simpl; [reflexivity|].
  destruct (id m =? note_id) eqn:Hm; simpl.
  - apply Z.eqb_eq in Hm.
    assert (Hf : (id m =? other) = false) by (apply Z.eqb_neq; lia).
    now rewrite Hf.
  - now rewrite IH.
Qed.

Lemma SELECT_DELETE_same (note_id : Z) (db : database) :
  SELECT_WHERE_id note_id (DELETE_WHERE_id note_id db) = None.
Proof.
  apply SELECT_None. unfold DELETE_WHERE_id. simpl.
  apply Forall_forall. intros n Hin. apply filter_In in Hin.
  destruct Hin as [_ Hneg]. apply negb_true_iff in Hneg. now apply Z.eqb_neq.
Qed.

Lemma SELECT_DELETE_other (note_id other : Z) (db : database) :
  other <> note_id ->
  SELECT_WHERE_id other (DELETE_WHERE_id note_id db) = SELECT_WHERE_id other db.
Proof.
  intros Hne. unfold SELECT_WHERE_id, DELETE_WHERE_id. simpl.
  apply find_filter_agree. intros n Hn. apply Z.eqb_eq in Hn.
  apply negb_true_iff, Z.eqb_neq. lia.
Qed.

Lemma find_app_miss {A : Type} (p : A -> bool) (l l' : list A) :
  find p l = None -> find p (l ++ l')%list = find p l'.
Proof.
  induction l as [|x l IH]; simpl; [reflexivity|].
  destruct (p x); [discriminate | exact IH].
Qed.

Lemma find_app_hit {A : Type} (p : A -> bool) (l l' : list A) (x : A) :
  find p l = Some x -> find p (l ++ l')%list = Some x.
Proof.
  induction l as [|y l IH]; simpl; [discriminate|].
  destruct (p y); [trivial | exact IH].
Qed.

(** What an [INSERT] does, spelled out. *)
Lemma INSERT_Some (t c cr up : string) (db db' : database) (rowid : Z) :
  INSERT t c cr up db = Some (rowid, db') ->
  rowid = Z.max (seq db) (largest_rowid (rows db)) + 1 /\
  rowid <= max_int64 /\
  db' = mkDatabase (rows db ++ [mkNote rowid t c cr up])%list rowid.
Proof.
  unfold INSERT.
  destruct (Z.leb_spec max_int64 (Z.max (seq db) (largest_rowid (rows db))));
    [discriminate|].
  intros [= <- <-]. repeat split. lia.
Qed.

(** The row an [INSERT] adds, read back by [lastrowid]. *)
Lemma SELECT_INSERT_same (t c cr up : string) (db db' : database) (rowid : Z) :
  INSERT t c cr up db = Some (rowid, db') ->
  SELECT_WHERE_id rowid db' = Some (mkNote rowid t c cr up).
Proof.
  intros H. apply INSERT_Some in H. destruct H as (Hrow & _ & ->).
  unfold SELECT_WHERE_id. simpl. rewrite find_app_miss.
  - simpl. now rewrite Z.eqb_refl.
  - apply (SELECT_None rowid db). apply Forall_forall. intros n Hin.
    apply id_le_largest_rowid in Hin. lia.
Qed.

Lemma SELECT_INSERT_other (t c cr up : string) (db db' : database) (rowid other : Z) :
  INSERT t c cr up db = Some (rowid, db') ->
  other <> rowid ->
  SELECT_WHERE_id other db' = SELECT_WHERE_id other db.
Proof.
  intros H Hne. apply INSERT_Some in H. destruct H as (_ & _ & ->).
  unfold SELECT_WHERE_id. simpl.
  destruct (find (fun n => id n =? other) (rows db)) as [n|] eqn:Hfind.
  - now apply find_app_hit.
  - rewrite find_app_miss by exact Hfind. simpl.
    assert (Hf : (rowid =? other) = false) by (apply Z.eqb_neq; lia).
    now rewrite Hf.
Qed.

End TableFacts.

(* ------------------------------------------------------------------ *)
(** ** Facts about the handlers *)

Section HandlerFacts.

Lemma fits_int64_rowid (z : Z) : 1 <= z <= max_int64 -> fits_int64 z = true.
Proof.
  intros H. unfold fits_int64. apply andb_true_iff.
  split; apply Z.leb_le; unfold min_int64, max_int64 in *; lia.
Qed.

Lemma get_note_found (note_id : Z) (db : database) (n : Note) :
  get_note note_id db = JSON_Note n <->
  fits_int64 note_id = true /\ SELECT_WHERE_id note_id db = Some n.
Proof.
  unfold get_note. destruct (fits_int64 note_id); simpl.
  - destruct (SELECT_WHERE_id note_id db) as [m|]; split.
    + intros [= ->]. auto.
    + intros [_ [= ->]]. reflexivity.
    + discriminate.
    + intros [_ H]. discriminate.
  - split; [discriminate | intros [H _]; discriminate].
Qed.

Lemma get_note_missing (note_id : Z) (db : database) :
  fits_int64 note_id = true ->
  SELECT_WHERE_id note_id db = None ->
  get_note note_id db = HTTPException 404 "Note not found".
Proof. intros Hfit Hsel. unfold get_note. now rewrite Hfit, Hsel. Qed.

Lemma validate_NoteCreate_Some (body : json) (note : NoteCreate) :
  validate_NoteCreate body = Some note <->
  str_member "title" body = Some (NoteCreate_title note) /\
  str_member "content" body = Some (NoteCreate_content note).
Proof.
  destruct note as [t c]. unfold validate_NoteCreate, str_member, required_str.
  destruct body as [| | | |items|members]; simpl;
    try (split; [discriminate | intros [H _]; discriminate]).
  destruct (dict_get "title" members) as [[| | |s| |]|];
    try (split; [discriminate | intros [H _]; discriminate]).
  destruct (dict_get "content" members) as [[| | |s'| |]|];
    try (split; [discriminate | intros [_ H]; discriminate]).
  split.
  - intros [= -> ->]. auto.
  - intros [[= ->] [= ->]]. reflexivity.
Qed.


(** [create_note] either fails, on a string that cannot be bound or on a
    full table, and leaves the table alone, or appends the row it answers
    with. *)
Lemma create_note_cases (clock : datetime) (note : NoteCreate) (db : database) :
  let largest := Z.max (seq db) (largest_rowid (rows db)) in
  let created :=
    mkNote (largest + 1) (NoteCreate_title note) (NoteCreate_content note)
           (isoformat clock) (isoformat clock) in
  ((binds_as_text (NoteCreate_title note) &&
    binds_as_text (NoteCreate_content note) = false \/
    max_int64 <= largest) /\
   create_note clock note db = (InternalServerError, db)) \/
  (largest < max_int64 /\
   create_note clock note db
   = (JSON_Note created, mkDatabase (rows db ++ [created])%list (largest + 1))).
Proof.
  intros largest created. unfold create_note.
  destruct (binds_as_text (NoteCreate_title note) &&
            binds_as_text (NoteCreate_content note)); cbn [negb];
    [|left; auto].
  destruct (INSERT _ _ _ _ db) as [[rowid db']|] eqn:Hins.
  - right. rewrite (SELECT_INSERT_same _ _ _ _ _ _ _ Hins).
    apply INSERT_Some in Hins. destruct Hins as (-> & Hle & ->).
    fold largest in Hle |- *. split; [lia | reflexivity].
  - left. split; [|reflexivity]. right. unfold INSERT in Hins. fold largest in Hins.
    destruct (Z.leb_spec max_int64 largest); [assumption | discriminate].
Qed.

(** A note is created only from strings that can be bound. *)
Lemma create_note_binds (clock : datetime) (note : NoteCreate) (db db' : database)
    (n : Note) :
  create_note clock note db = (JSON_Note n, db') ->
  binds_as_text (NoteCreate_title note) = true /\
  binds_as_text (NoteCreate_content note) = true.
Proof.
  unfold create_note.
  destruct (binds_as_text (NoteCreate_title note)); [|discriminate].
  destruct (binds_as_text (NoteCreate_content note)); [auto | discriminate].
Qed.

(** [update_note] on a note that [get_note] finds, with strings that can
    be bound. *)
Lemma update_note_found (clock : datetime) (note_id : Z) (u : NoteUpdate)
    (db : database) (n : Note) :
  get_note note_id db = JSON_Note n ->
  supplied_binds (NoteUpdate_title u) && supplied_binds (NoteUpdate_content u) = true ->
  let t := merged (NoteUpdate_title u) (title n) in
  let c := merged (NoteUpdate_content u) (content n) in
  update_note clock note_id u db
  = (JSON_Note (mkNote (id n) t c (created_at n) (isoformat clock)),
     UPDATE_WHERE_id t c (isoformat clock) note_id db).
Proof.
  intros Hget Hbinds t c. apply get_note_found in Hget. destruct Hget as [Hfit Hsel].
  unfold update_note. rewrite Hfit, Hsel, Hbinds. simpl negb. cbv iota.
  fold (merged (NoteUpdate_title u) (title n)).
  fold (merged (NoteUpdate_content u) (content n)). fold t c.
  now rewrite (SELECT_UPDATE_same t c (isoformat clock) note_id db n Hsel).
Qed.


(** [update_note] answers 200 only for a note that exists and strings that
    can be bound. *)
Lemma update_note_200 (clock : datetime) (note_id : Z) (u : NoteUpdate)
    (db db' : database) (r : response) :
  update_note clock note_id u db = (r, db') ->
  status_code r = 200 ->
  exists n, get_note note_id db = JSON_Note n.
Proof.
  unfold update_note, get_note.
  destruct (fits_int64 note_id); simpl; [|intros [= <- <-]; discriminate].
  destruct (SELECT_WHERE_id note_id db) as [n|]; [eauto|].
  intros [= <- <-]. discriminate.
Qed.

Lemma update_note_200_binds (clock : datetime) (note_id : Z) (u : NoteUpdate)
    (db db' : database) (r : response) :
  update_note clock note_id u db = (r, db') ->
  status_code r = 200 ->
  supplied_binds (NoteUpdate_title u) && supplied_binds (NoteUpdate_content u) = true.
Proof.
  unfold update_note.
  destruct (fits_int64 note_id); cbn [negb]; [|intros [= <- <-]; discriminate].
  destruct (SELECT_WHERE_id note_id db) as [n|];
    [|intros [= <- <-]; discriminate].
  cbv zeta.
  destruct (supplied_binds (NoteUpdate_title u) &&
            supplied_binds (NoteUpdate_content u)); [reflexivity|].
  cbn [negb]. intros [= <- <-]. discriminate.
Qed.

Lemma get_note_after_update (clock : datetime) (note_id : Z) (t c : string)
    (db : database) (n : Note) :
  get_note note_id db = JSON_Note n ->
  get_note note_id (UPDATE_WHERE_id t c (isoformat clock) note_id db)
  = JSON_Note (mkNote (id n) t c (created_at n) (isoformat clock)).
Proof.
  intros Hget. apply get_note_found in Hget. destruct Hget as [Hfit Hsel].
  apply get_note_found. split; [exact Hfit|]. now apply SELECT_UPDATE_same.
Qed.

End HandlerFacts.

(* ------------------------------------------------------------------ *)
(** ** Creation: validation and the created record *)

Section Creation.

(** A POST answers 200 only with the note it has just stored, built from
    the two strings of the body and the clock reading. *)
Lemma POST_200 (clock : datetime) (body : json) (db db' : database) (r : response) :
  serve clock (POST_notes body) db = (r, db') ->
  status_code r = 200 ->
  exists t c rowid,
    str_member "title" body = Some t /\
    str_member "content" body = Some c /\
    1 <= rowid <= max_int64 /\
    r = JSON_Note (mkNote rowid t c (isoformat clock) (isoformat clock)) /\
    db' = mkDatabase
            (rows db ++ [mkNote rowid t c (isoformat clock) (isoformat clock)])%list
            rowid /\
    SELECT_WHERE_id rowid db = None.
Proof.
  cbn [serve]. destruct (validate_NoteCreate body) as [note|] eqn:Hval.
  - apply validate_NoteCreate_Some in Hval. destruct Hval as [Ht Hc].
    destruct (create_note_cases clock note db) as [[_ Hfull] | [Hroom Hok]].
    + rewrite Hfull. intros [= <- <-]. discriminate.
    + rewrite Hok. intros [= <- <-] _.
      pose proof (largest_rowid_nonneg (rows db)) as Hnn.
      exists (NoteCreate_title note), (NoteCreate_content note),
             (Z.max (seq db) (largest_rowid (rows db)) + 1).
      repeat split; try assumption; try lia.
      apply SELECT_None, Forall_forall. intros n Hin.
      apply id_le_largest_rowid in Hin. lia.
  - intros [= <- <-]. discriminate.
Qed.






(** C9.  The note a successful POST answers with has [created_at] equal to
    [updated_at] (both the ISO string of the clock reading), carries the
    title and content of the body, and is what a GET of its id returns
    next. *)
Theorem C9_created_record (clock : datetime) (body : json) (db db' : database)
    (r : response) :
  serve clock (POST_notes body) db = (r, db') ->
  status_code r = 200 ->
  exists n,
    r = JSON_Note n /\
    created_at n = updated_at n /\
    created_at n = isoformat clock /\
    str_member "title" body = Some (title n) /\
    str_member "content" body = Some (content n) /\
    get_note (id n) db' = JSON_Note n.
Proof.
  intros Hserve H200.
  destruct (POST_200 _ _ _ _ _ Hserve H200)
    as (t & c & rowid & Ht & Hc & Hrange & -> & -> & Hfree).
  eexists. split; [reflexivity|]. simpl. repeat split; try assumption.
  apply get_note_found. split; [now apply fits_int64_rowid|].
  unfold SELECT_WHERE_id in *. simpl. rewrite find_app_miss by exact Hfree.
  simpl. now rewrite Z.eqb_refl.
Qed.

Lemma C9_created_record_witness :
  let clock := mkDatetime 2024 5 17 9 30 0 250000 in
  let body := JObj [("title", JStr "T"); ("content", JStr "C")] in
  exists n,
    fst (serve clock (POST_notes body) fresh) = JSON_Note n /\
    created_at n = updated_at n /\
    created_at n = isoformat clock /\
    str_member "title" body = Some (title n) /\
    str_member "content" body = Some (content n) /\
    get_note (id n) (snd (serve clock (POST_notes body) fresh)) = JSON_Note n.
Proof.
  intros clock body.
  apply (C9_created_record clock body fresh
           (snd (serve clock (POST_notes body) fresh))
           (fst (serve clock (POST_notes body) fresh)));
    reflexivity.
Defined.

End Creation.

(* ------------------------------------------------------------------ *)
(** ** Update: partial updates, the timestamp and nulls *)

Section Update.

Lemma optional_str_null_or_absent (field : option json) :
  field = None \/ field = Some JNull -> optional_str field = Some None.
Proof. intros [-> | ->]; reflexivity. Qed.

(** A PUT answers 200 only for a note that exists, and then with the
    merged record, which is also what the table holds afterwards. *)
Lemma PUT_200 (clock : datetime) (note_id : Z) (body : json) (db db' : database)
    (r : response) :
  serve clock (PUT_note note_id body) db = (r, db') ->
  status_code r = 200 ->
  exists u n,
    validate_NoteUpdate body = Some u /\
    get_note note_id db = JSON_Note n /\
    let t := merged (NoteUpdate_title u) (title n) in
    let c := merged (NoteUpdate_content u) (content n) in
    r = JSON_Note (mkNote (id n) t c (created_at n) (isoformat clock)) /\
    db' = UPDATE_WHERE_id t c (isoformat clock) note_id db.
Proof.
  cbn [serve]. destruct (validate_NoteUpdate body) as [u|] eqn:Hval;
    [|intros [= <- <-]; discriminate].
  intros Hupd H200.
  destruct (update_note_200 _ _ _ _ _ _ Hupd H200) as [n Hget].
  pose proof (update_note_200_binds _ _ _ _ _ _ Hupd H200) as Hbinds.
  rewrite (update_note_found clock note_id u db n Hget Hbinds) in Hupd.
  injection Hupd as <- <-. exists u, n. auto.
Qed.

(** A PUT whose body validates and whose strings can be bound, on a note
    that exists, is answered 200. *)
Lemma PUT_found (clock : datetime) (note_id : Z) (body : json) (db : database)
    (u : NoteUpdate) (n : Note) :
  validate_NoteUpdate body = Some u ->
  supplied_binds (NoteUpdate_title u) && supplied_binds (NoteUpdate_content u) = true ->
  get_note note_id db = JSON_Note n ->
  let t := merged (NoteUpdate_title u) (title n) in
  let c := merged (NoteUpdate_content u) (content n) in
  serve clock (PUT_note note_id body) db
  = (JSON_Note (mkNote (id n) t c (created_at n) (isoformat clock)),
     UPDATE_WHERE_id t c (isoformat clock) note_id db).
Proof.
  intros Hval Hbinds Hget. cbn [serve]. rewrite Hval. now apply update_note_found.
Qed.




(** A title that holds a surrogate is not written: the PUT is answered 500
    and the note stays as it was, content and title. *)
Example put_with_a_surrogate_title_is_refused :
  let clock := mkDatetime 2024 5 17 9 30 0 0 in
  let n := mkNote 1 "T" "C" "2024-05-16T08:00:00" "2024-05-16T08:00:00" in
  let db := mkDatabase [n] 1 in
  let surrogate := String (ascii_of_N 237) (String (ascii_of_N 160)
                     (String (ascii_of_N 128) EmptyString)) in
  binds_as_text surrogate = false /\
  serve clock (PUT_note 1 (JObj [("title", JStr surrogate)])) db
  = (InternalServerError, db) /\
  serve clock (POST_notes (note_body surrogate "C")) db = (InternalServerError, db).
Proof. repeat split. Qed.

(** C3.  Every PUT that is answered 200 answers with, and stores, a note
    whose [updated_at] is the ISO string of the clock reading of that
    request; and a PUT with an empty object as body, on a note that exists,
    is such a request: it is answered 200, changes neither title nor content
    nor [created_at], and sets [updated_at] as well. *)
Theorem C3_every_accepted_put_refreshes_updated_at (clock : datetime) (note_id : Z)
    (db : database) :
  (forall body r db',
     serve clock (PUT_note note_id body) db = (r, db') ->
     status_code r = 200 ->
     exists n', r = JSON_Note n' /\
                updated_at n' = isoformat clock /\
                get_note note_id db' = JSON_Note n') /\
  (forall n,
     get_note note_id db = JSON_Note n ->
     exists n' db',
       serve clock (PUT_note note_id (JObj [])) db = (JSON_Note n', db') /\
       updated_at n' = isoformat clock /\
       get_note note_id db' = JSON_Note n' /\
       title n' = title n /\ content n' = content n /\
       created_at n' = created_at n).
Proof.
  split.
  - intros body r db' Hserve H200.
    destruct (PUT_200 _ _ _ _ _ _ Hserve H200) as (u & n & _ & Hget & -> & ->).
    eexists. split; [reflexivity|]. split; [reflexivity|].
    now apply get_note_after_update.
  - intros n Hget.
    rewrite (PUT_found clock note_id (JObj []) db (mkNoteUpdate None None) n
               eq_refl eq_refl Hget).
    simpl. do 2 eexists. split; [reflexivity|]. split; [reflexivity|].
    split; [now apply get_note_after_update | auto].
Qed.

Lemma C3_every_accepted_put_refreshes_updated_at_witness :
  let clock := mkDatetime 2024 5 17 9 30 0 0 in
  let n := mkNote 1 "T" "C" "2024-05-16T08:00:00" "2024-05-16T08:00:00" in
  let db := mkDatabase [n] 1 in
  (exists n', fst (serve clock (PUT_note 1 (JObj [("title", JStr "T2")])) db) = JSON_Note n' /\
              updated_at n' = "2024-05-17T09:30:00" /\
              get_note 1 (snd (serve clock (PUT_note 1 (JObj [("title", JStr "T2")])) db))
              = JSON_Note n') /\
  (exists n' db',
     serve clock (PUT_note 1 (JObj [])) db = (JSON_Note n', db') /\
     updated_at n' = "2024-05-17T09:30:00" /\
     get_note 1 db' = JSON_Note n' /\
     title n' = "T" /\ content n' = "C" /\
     created_at n' = "2024-05-16T08:00:00").
Proof.
  intros clock n db. split.
  - apply (proj1 (C3_every_accepted_put_refreshes_updated_at clock 1 db)
             (JObj [("title", JStr "T2")])
             (fst (serve clock (PUT_note 1 (JObj [("title", JStr "T2")])) db))
             (snd (serve clock (PUT_note 1 (JObj [("title", JStr "T2")])) db)));
      reflexivity.
  - apply (proj2 (C3_every_accepted_put_refreshes_updated_at clock 1 db) n).
    reflexivity.
Defined.

End Update.

Section Nulls.

Lemma validate_NoteUpdate_omit_null (key : string) (members : list (string * json)) :
  key = "title" \/ key = "content" ->
  dict_get key members = Some JNull ->
  validate_NoteUpdate (JObj (omit key members)) = validate_NoteUpdate (JObj members).
Proof.
  intros [-> | ->] Hnull; unfold validate_NoteUpdate;
    rewrite dict_get_omit_same, Hnull, dict_get_omit_other by discriminate;
    reflexivity.
Qed.

(** C10.  In the body of a PUT, a [title] or [content] member that is JSON
    [null] counts as no member at all: removing it from the body changes
    neither the answer nor the table.  A PUT that is answered 200 leaves a
    field whose member is [null] as it was, replaces a field whose member is
    the empty string by the empty string, and in every case leaves in each
    field either the string it held or a string of the body: never a
    null. *)
Theorem C10_null_member_is_no_member (clock : datetime) (note_id : Z)
    (members : list (string * json)) (db : database) :
  (forall key,
     key = "title" \/ key = "content" ->
     dict_get key members = Some JNull ->
     serve clock (PUT_note note_id (JObj (omit key members))) db
     = serve clock (PUT_note note_id (JObj members)) db) /\
  (forall n r db',
     get_note note_id db = JSON_Note n ->
     serve clock (PUT_note note_id (JObj members)) db = (r, db') ->
     status_code r = 200 ->
     exists n',
       r = JSON_Note n' /\ get_note note_id db' = JSON_Note n' /\
       (dict_get "title" members = Some JNull -> title n' = title n) /\
       (dict_get "content" members = Some JNull -> content n' = content n) /\
       (dict_get "title" members = Some (JStr "") -> title n' = "") /\
       (dict_get "content" members = Some (JStr "") -> content n' = "") /\
       (title n' = title n \/ dict_get "title" members = Some (JStr (title n'))) /\
       (content n' = content n \/ dict_get "content" members = Some (JStr (content n')))).
Proof.
  split.
  - intros key Hkey Hnull. cbn [serve].
    now rewrite (validate_NoteUpdate_omit_null key members Hkey Hnull).
  - intros n r db' Hget Hserve H200.
    destruct (PUT_200 _ _ _ _ _ _ Hserve H200) as (u & n0 & Hval & Hget0 & -> & ->).
    rewrite Hget in Hget0. injection Hget0 as <-.
    eexists. split; [reflexivity|].
    split; [now apply get_note_after_update|]. simpl.
    unfold validate_NoteUpdate in Hval.
    destruct (dict_get "title" members) as [[| | |t| |]|];
      destruct (dict_get "content" members) as [[| | |c| |]|];
      simpl in Hval; try discriminate; injection Hval as <-; simpl;
      repeat split; try discriminate; try (intros [= <-]; reflexivity); auto.
Qed.

Lemma C10_null_member_is_no_member_witness :
  let clock := mkDatetime 2024 5 17 9 30 0 0 in
  let n := mkNote 1 "T" "C" "2024-05-16T08:00:00" "2024-05-16T08:00:00" in
  let db := mkDatabase [n] 1 in
  let members := [("title", JNull); ("content", JStr "")] in
  serve clock (PUT_note 1 (JObj [("content", JStr "")])) db
  = serve clock (PUT_note 1 (JObj members)) db /\
  exists n',
    fst (serve clock (PUT_note 1 (JObj members)) db) = JSON_Note n' /\
    title n' = "T" /\ content n' = "".
Proof.
  intros clock n db members. split.
  - apply (proj1 (C10_null_member_is_no_member clock 1 members db) "title");
      [left|]; reflexivity.
  - destruct (proj2 (C10_null_member_is_no_member clock 1 members db) n
                (fst (serve clock (PUT_note 1 (JObj members)) db))
                (snd (serve clock (PUT_note 1 (JObj members)) db))
                eq_refl eq_refl eq_refl)
      as (n' & Hr & _ & Htitle & _ & _ & Hcontent & _).
    exists n'. split; [exact Hr|]. split; [now apply Htitle | now apply Hcontent].
Defined.

End Nulls.

(* ------------------------------------------------------------------ *)
(** ** Runs and the key sequence *)

Section Runs.

Lemma run_cons (clock : datetime) (req : request) (rest : list (datetime * request))
    (db : database) :
  run ((clock, req) :: rest) db
  = ((req, fst (serve clock req db)) :: fst (run rest (snd (serve clock req db))),
     snd (run rest (snd (serve clock req db)))).
Proof.
  cbn [run]. destruct (serve clock req db) as [resp db']. cbn [fst snd].
  destruct (run rest db') as [log db'']. reflexivity.
Qed.

(** A property of the table that every request preserves holds after every
    run. *)
Lemma run_preserves (P : database -> Prop) :
  (forall clock req db, P db -> P (snd (serve clock req db))) ->
  forall trace db, P db -> P (snd (run trace db)).
Proof.
  intros Hstep trace. induction trace as [|[clock req] rest IH]; intros db HP.
  - exact HP.
  - rewrite run_cons. cbn [snd]. apply IH, Hstep, HP.
Qed.

Lemma keyed_largest (db : database) :
  keyed db -> Z.max (seq db) (largest_rowid (rows db)) = seq db.
Proof.
  intros (Hseq & Hrows & _). apply Z.max_l, largest_rowid_le; [exact Hseq|].
  eapply Forall_impl; [|exact Hrows]. simpl. intros n Hn. lia.
Qed.

Lemma keyed_fresh : keyed fresh.
Proof. repeat split; simpl; [lia | constructor | constructor]. Qed.

(** Dropping rows keeps the ids of the remaining rows distinct. *)
Lemma distinct_ids_filter (keep : Note -> bool) (table : list Note) :
  NoDup (map id table) -> NoDup (map id (filter keep table)).
Proof.
  intros Hnd. induction table as [|row table IH]; [exact Hnd|].
  simpl in Hnd. inversion Hnd as [|i ids Hfresh Hrest]; subst.
  simpl. destruct (keep row); [|now apply IH].
  simpl. constructor; [|now apply IH].
  rewrite in_map_iff. intros (other & Hsame & Hin).
  apply filter_In in Hin. apply Hfresh. rewrite in_map_iff.
  exists other. tauto.
Qed.

Lemma map_id_UPDATE (t c u : string) (note_id : Z) (db : database) :
  map id (rows (UPDATE_WHERE_id t c u note_id db)) = map id (rows db).
Proof.
  unfold UPDATE_WHERE_id. simpl. rewrite map_map. apply map_ext.
  intros n. now destruct (id n =? note_id).
Qed.

Lemma keyed_UPDATE (t c u : string) (note_id : Z) (db : database) :
  keyed db -> keyed (UPDATE_WHERE_id t c u note_id db).
Proof.
  intros (Hseq & Hrows & Hnd). repeat split.
  - exact Hseq.
  - unfold UPDATE_WHERE_id. simpl. apply Forall_map.
    eapply Forall_impl; [|exact Hrows]. simpl. intros n Hn.
    now destruct (id n =? note_id).
  - now rewrite map_id_UPDATE.
Qed.

Lemma keyed_DELETE (note_id : Z) (db : database) :
  keyed db -> keyed (DELETE_WHERE_id note_id db).
Proof.
  intros (Hseq & Hrows & Hnd). repeat split; simpl.
  - exact Hseq.
  - apply Forall_forall. intros n Hin. apply filter_In in Hin.
    rewrite Forall_forall in Hrows. now apply Hrows.
  - now apply distinct_ids_filter.
Qed.

(** One request: the table stays keyed, [seq] does not go down, and an id
    handed out is the new value of [seq], above the old one. *)
Lemma serve_keyed (clock : datetime) (req : request) (db : database) :
  keyed db ->
  keyed (snd (serve clock req db)) /\
  seq db <= seq (snd (serve clock req db)) /\
  forall i, created_id (req, fst (serve clock req db)) = Some i ->
            seq db < i /\ i = seq (snd (serve clock req db)).
Proof.
  intros Hk.
  assert (Hsame : forall resp,
            created_id (req, resp) = None ->
            keyed (snd (resp, db)) /\
            seq db <= seq (snd (resp, db)) /\
            forall i, created_id (req, fst (resp, db)) = Some i ->
                      seq db < i /\ i = seq (snd (resp, db))).
  { intros resp Hnone. cbn [fst snd]. rewrite Hnone.
    split; [exact Hk | split; [lia | discriminate]]. }
  assert (Hwrite : forall resp db',
            (forall i, created_id (req, resp) <> Some i) ->
            keyed db' -> seq db' = seq db ->
            keyed (snd (resp, db')) /\
            seq db <= seq (snd (resp, db')) /\
            forall i, created_id (req, fst (resp, db')) = Some i ->
                      seq db < i /\ i = seq (snd (resp, db'))).
  { intros resp db' Hnone Hk' Hseq. cbn [fst snd].
    split; [exact Hk' | split; [lia | intros i Hi; now apply Hnone in Hi]]. }
  destruct req as [| |note_id|body|note_id body|note_id]; cbn [serve];
    try (apply Hsame; reflexivity).
  - destruct (validate_NoteCreate body) as [note|];
      [|apply Hsame; reflexivity].
    destruct (create_note_cases clock note db) as [[_ ->] | [Hroom ->]];
      [apply Hsame; reflexivity|].
    rewrite (keyed_largest db Hk) in *. destruct Hk as (Hseq & Hrows & Hnd).
    cbn [fst snd created_id id seq rows]. split; [|split].
    + repeat split; simpl.
      * lia.
      * apply Forall_app. split.
        -- eapply Forall_impl; [|exact Hrows]. simpl. intros n Hn. lia.
        -- constructor; [simpl; lia | constructor].
      * rewrite map_app. simpl. apply NoDup_app.
        -- exact Hnd.
        -- constructor; [simpl; tauto | constructor].
        -- intros i Hin [<- | []]. apply in_map_iff in Hin.
           destruct Hin as (n & Hid & Hin). rewrite Forall_forall in Hrows.
           apply Hrows in Hin. lia.
    + lia.
    + intros i [= <-]. lia.
  - destruct (validate_NoteUpdate body) as [u|];
      [|apply Hsame; reflexivity].
    unfold update_note. destruct (fits_int64 note_id); cbn [negb];
      [|apply Hsame; reflexivity].
    destruct (SELECT_WHERE_id note_id db) as [n|];
      [|apply Hsame; reflexivity].
    cbv zeta.
    destruct (supplied_binds (NoteUpdate_title u) &&
              supplied_binds (NoteUpdate_content u)); cbn [negb];
      [|apply Hsame; reflexivity].
    match goal with
    | |- context [UPDATE_WHERE_id ?t ?c ?u ?i db] =>
        pose proof (keyed_UPDATE t c u i db Hk) as Hk';
        destruct (SELECT_WHERE_id i (UPDATE_WHERE_id t c u i db))
    end; apply Hwrite; try exact Hk'; try reflexivity; discriminate.
  - unfold delete_note. destruct (fits_int64 note_id); cbn [negb];
      [|apply Hsame; reflexivity].
    destruct (SELECT_WHERE_id note_id db) as [n|];
      [|apply Hsame; reflexivity].
    apply Hwrite; [discriminate | now apply keyed_DELETE | reflexivity].
Qed.

Lemma run_keyed (trace : list (datetime * request)) (db : database) :
  keyed db -> keyed (snd (run trace db)).
Proof.
  apply (run_preserves keyed). intros clock req db0 Hk.
  now apply serve_keyed.
Qed.

Lemma reachable_keyed (db : database) : reachable db -> keyed db.
Proof. intros [trace <-]. apply run_keyed, keyed_fresh. Qed.

(** Along a run from a keyed table the ids handed out go strictly up, and
    they all lie above the [seq] the run started from. *)
Lemma run_assigned_ids (trace : list (datetime * request)) (db : database) :
  keyed db ->
  StronglySorted Z.lt (assigned_ids (fst (run trace db))) /\
  Forall (fun i => seq db < i) (assigned_ids (fst (run trace db))).
Proof.
  revert db. induction trace as [|[clock req] rest IH]; intros db Hk.
  - simpl. split; constructor.
  - rewrite run_cons. cbn [fst assigned_ids].
    destruct (serve_keyed clock req db Hk) as (Hk' & Hseq & Hid).
    destruct (IH _ Hk') as [Hsorted Habove].
    assert (Habove' : Forall (fun i => seq db < i)
                        (assigned_ids (fst (run rest (snd (serve clock req db)))))).
    { eapply Forall_impl; [|exact Habove]. simpl. intros i Hi. lia. }
    destruct (created_id (req, fst (serve clock req db))) as [i|] eqn:Hcreated.
    + destruct (Hid i eq_refl) as [Hlt ->]. split.
      * constructor; [exact Hsorted | exact Habove].
      * constructor; [exact Hlt | exact Habove'].
    + split; assumption.
Qed.

End Runs.

(* ------------------------------------------------------------------ *)
(** ** Identifiers *)

Section Identifiers.

Lemma StronglySorted_lt_NoDup (l : list Z) : StronglySorted Z.lt l -> NoDup l.
Proof.
  induction 1 as [|i l _ IH Hall]; constructor; [|exact IH].
  intros Hin. rewrite Forall_forall in Hall. apply Hall in Hin. lia.
Qed.

(** C5.  Along every run of a fresh deployment, each id a POST hands out is
    strictly greater than every id handed out before it, whatever was
    deleted in between: so no id is handed out twice, ids are positive, and
    no two rows of the table share an id. *)
Theorem C5_ids_unique_and_increasing (trace : list (datetime * request)) :
  StronglySorted Z.lt (assigned_ids (fst (run trace fresh))) /\
  NoDup (assigned_ids (fst (run trace fresh))) /\
  Forall (fun i => 1 <= i) (assigned_ids (fst (run trace fresh))) /\
  NoDup (map id (rows (snd (run trace fresh)))).
Proof.
  destruct (run_assigned_ids trace fresh keyed_fresh) as [Hsorted Habove].
  split; [exact Hsorted|].
  split; [now apply StronglySorted_lt_NoDup|].
  split.
  - eapply Forall_impl; [|exact Habove]. simpl. intros i Hi. lia.
  - apply (run_keyed trace fresh keyed_fresh).
Qed.

(** The id of a deleted note is not handed out again. *)
Example id_not_reused_after_delete :
  let clock := mkDatetime 2024 5 17 9 30 0 0 in
  let body := JObj [("title", JStr "T"); ("content", JStr "C")] in
  assigned_ids
    (fst (run [(clock, POST_notes body); (clock, DELETE_note 1); (clock, POST_notes body)]
              fresh))
  = [1; 2].
Proof. reflexivity. Qed.

Lemma snd_update_note (clock : datetime) (note_id : Z) (u : NoteUpdate) (db : database) :
  snd (update_note clock note_id u db) = db \/
  exists t c n,
    SELECT_WHERE_id note_id db = Some n /\
    snd (update_note clock note_id u db)
    = UPDATE_WHERE_id t c (isoformat clock) note_id db.
Proof.
  unfold update_note. destruct (fits_int64 note_id); cbn [negb]; [|now left].
  destruct (SELECT_WHERE_id note_id db) as [n|]; [|now left].
  cbv zeta.
  destruct (supplied_binds (NoteUpdate_title u) &&
            supplied_binds (NoteUpdate_content u)); cbn [negb]; [|now left].
  right.
  match goal with
  | |- context [UPDATE_WHERE_id ?t ?c ?s ?i db] =>
      exists t, c, n; destruct (SELECT_WHERE_id i (UPDATE_WHERE_id t c s i db))
  end; auto.
Qed.

Lemma snd_delete_note (note_id : Z) (db : database) :
  snd (delete_note note_id db) = db \/
  snd (delete_note note_id db) = DELETE_WHERE_id note_id db.
Proof.
  unfold delete_note. destruct (fits_int64 note_id); cbn [negb]; [|now left].
  destruct (SELECT_WHERE_id note_id db); [now right | now left].
Qed.

Lemma serve_gone (note_id : Z) (clock : datetime) (req : request) (db : database) :
  gone note_id db -> gone note_id (snd (serve clock req db)).
Proof.
  intros (Hk & Hfit & Hle & Hsel).
  destruct (serve_keyed clock req db Hk) as (Hk' & Hseq & _).
  split; [exact Hk'|]. split; [exact Hfit|]. split; [lia|]. clear Hk' Hseq.
  destruct req as [| |i|body|i body|i]; cbn [serve]; try exact Hsel.
  - destruct (validate_NoteCreate body) as [note|]; [|exact Hsel].
    destruct (create_note_cases clock note db) as [[_ ->] | [_ ->]];
      [exact Hsel|].
    rewrite (keyed_largest db Hk). unfold SELECT_WHERE_id in *. cbn [snd rows].
    rewrite find_app_miss by exact Hsel. simpl.
    assert (Hf : (seq db + 1 =? note_id) = false) by (apply Z.eqb_neq; lia).
    now rewrite Hf.
  - destruct (validate_NoteUpdate body) as [u|]; [|exact Hsel].
    destruct (snd_update_note clock i u db) as [-> | (t & c & n & Hn & ->)];
      [exact Hsel|].
    destruct (Z.eq_dec note_id i) as [-> | Hne]; [congruence|].
    now rewrite SELECT_UPDATE_other.
  - destruct (snd_delete_note i db) as [-> | ->]; [exact Hsel|].
    destruct (Z.eq_dec note_id i) as [-> | Hne].
    + apply SELECT_DELETE_same.
    + now rewrite SELECT_DELETE_other.
Qed.

(** C8.  Once a DELETE of an id has been answered 200 in a deployment,
    every later GET of that id is answered 404 "Note not found", whatever
    requests, POSTs included, are served in between. *)
Theorem C8_deleted_note_stays_not_found (db db1 : database) (clock : datetime)
    (note_id : Z) (r : response) :
  reachable db ->
  serve clock (DELETE_note note_id) db = (r, db1) ->
  status_code r = 200 ->
  forall trace,
    get_note note_id (snd (run trace db1)) = HTTPException 404 "Note not found" /\
    status_code (get_note note_id (snd (run trace db1))) = 404.
Proof.
  intros Hreach Hserve H200 trace.
  apply reachable_keyed in Hreach.
  assert (Hgone : gone note_id db1).
  { cbn [serve] in Hserve. unfold delete_note in Hserve.
    destruct (fits_int64 note_id) eqn:Hfit; cbn [negb] in Hserve;
      [|injection Hserve as <- <-; discriminate].
    destruct (SELECT_WHERE_id note_id db) as [n|] eqn:Hsel;
      [|injection Hserve as <- <-; discriminate].
    injection Hserve as _ <-.
    split; [now apply keyed_DELETE|]. split; [exact Hfit|].
    split; [|apply SELECT_DELETE_same].
    apply SELECT_Some in Hsel. destruct Hsel as [Hin <-].
    destruct Hreach as (_ & Hrows & _). rewrite Forall_forall in Hrows.
    simpl. apply Hrows in Hin. lia. }
  assert (Hlater : gone note_id (snd (run trace db1))).
  { apply (run_preserves (gone note_id)); [|exact Hgone].
    intros clock0 req db0. apply serve_gone. }
  destruct Hlater as (_ & Hfit & _ & Hsel).
  rewrite (get_note_missing _ _ Hfit Hsel). split; reflexivity.
Qed.

Lemma C8_deleted_note_stays_not_found_witness :
  let clock := mkDatetime 2024 5 17 9 30 0 0 in
  let body := JObj [("title", JStr "T"); ("content", JStr "C")] in
  let db := snd (run [(clock, POST_notes body)] fresh) in
  let db1 := snd (serve clock (DELETE_note 1) db) in
  let later := [(clock, GET_note 1); (clock, POST_notes body); (clock, PUT_note 1 body)] in
  get_note 1 (snd (run later db1)) = HTTPException 404 "Note not found" /\
  status_code (get_note 1 (snd (run later db1))) = 404.
Proof.
  intros clock body db db1 later.
  apply (C8_deleted_note_stays_not_found db db1 clock 1
           (fst (serve clock (DELETE_note 1) db))).
  - exists [(clock, POST_notes body)]. reflexivity.
  - reflexivity.
  - reflexivity.
Defined.

End Identifiers.

(* ------------------------------------------------------------------ *)
(** ** Timestamps *)

Section Timestamps.

Import StrOrder StrOrderFacts DatetimeFacts.

Lemma datetime_leb_refl (a : datetime) : Datetime.leb a a = true.
Proof.
  unfold Datetime.leb, Datetime.compare. now rewrite !Z.compare_refl.
Qed.

(** On datetimes the order is transitive: it is the order of their ISO
    strings. *)
Lemma datetime_leb_trans (a b c : datetime) :
  valid a -> valid b -> valid c ->
  Datetime.leb a b = true -> Datetime.leb b c = true -> Datetime.leb a c = true.
Proof.
  intros Ha Hb Hc. rewrite <- !isoformat_leb by assumption. apply le_trans.
Qed.

Lemma stamped_later (last clock : datetime) (db : database) :
  valid last -> valid clock -> Datetime.leb last clock = true ->
  stamped last db -> stamped clock db.
Proof.
  intros Hvl Hvc Hleb Hst. unfold stamped in *.
  eapply Forall_impl; [|exact Hst]. simpl.
  intros n (c & u & Hc & Hu & Hcr & Hup & Hcu & Hul).
  exists c, u. repeat (split; [assumption|]).
  now apply datetime_leb_trans with last.
Qed.

(** One request served at a reading not before [last]. *)
Lemma serve_stamped (last clock : datetime) (req : request) (db : database) :
  valid last -> valid clock -> Datetime.leb last clock = true ->
  stamped last db ->
  stamped clock (snd (serve clock req db)).
Proof.
  intros Hvl Hvc Hleb Hst.
  assert (Hnow : stamped clock db) by (now apply stamped_later with last).
  clear Hst. destruct req as [| |i|body|i body|i]; cbn [serve]; try exact Hnow.
  - destruct (validate_NoteCreate body) as [note|]; [|exact Hnow].
    destruct (create_note_cases clock note db) as [[_ ->] | [_ ->]];
      [exact Hnow|].
    unfold stamped. cbn [snd rows]. apply Forall_app. split; [exact Hnow|].
    constructor; [|constructor]. simpl. exists clock, clock.
    repeat (split; [assumption || reflexivity|]).
    split; apply datetime_leb_refl.
  - destruct (validate_NoteUpdate body) as [u|]; [|exact Hnow].
    destruct (snd_update_note clock i u db) as [-> | (t & c & n & _ & ->)];
      [exact Hnow|].
    unfold stamped, UPDATE_WHERE_id. cbn [rows]. apply Forall_map.
    eapply Forall_impl; [|exact Hnow]. simpl.
    intros m (cm & um & Hcm & Hum & Hcr & Hup & Hcu & Hul).
    destruct (id m =? i); simpl.
    + exists cm, clock. repeat (split; [assumption || reflexivity|]).
      split; [now apply datetime_leb_trans with um | apply datetime_leb_refl].
    + exists cm, um. repeat (split; [assumption|]). assumption.
  - destruct (snd_delete_note i db) as [-> | ->]; [exact Hnow|].
    unfold stamped, DELETE_WHERE_id. cbn [rows].
    apply Forall_forall. intros m Hin. apply filter_In in Hin.
    unfold stamped in Hnow. rewrite Forall_forall in Hnow. now apply Hnow.
Qed.

Lemma run_stamped (trace : list (datetime * request)) :
  forall (last : datetime) (db : database),
    valid last ->
    Forall valid (map fst trace) ->
    Sorted (fun a b => Datetime.leb a b = true) (map fst trace) ->
    HdRel (fun a b => Datetime.leb a b = true) last (map fst trace) ->
    stamped last db ->
    exists last', stamped last' (snd (run trace db)).
Proof.
  induction trace as [|[clock req] rest IH]; intros last db Hvl Hvalid Hsorted Hhd Hst.
  - exists last. exact Hst.
  - rewrite run_cons. cbn [snd]. cbn [map fst] in Hvalid, Hsorted, Hhd.
    apply Forall_cons_iff in Hvalid. destruct Hvalid as [Hvc Hvalid].
    apply Sorted_inv in Hsorted. destruct Hsorted as [Hsorted Hhd'].
    apply HdRel_inv in Hhd.
    apply (IH clock); try assumption.
    now apply serve_stamped with last.
Qed.

(** C4.  In every state a fresh deployment reaches along a run whose clock
    readings never go back, every note has [created_at <= updated_at]: as
    the two stored strings compare, and as the two clock readings they are
    the ISO strings of compare. *)
Theorem C4_updated_at_not_before_created_at (trace : list (datetime * request)) :
  monotone_clock trace ->
  Forall (fun n => StrOrder.le (created_at n) (updated_at n) /\
                   created_before_updated n)
         (rows (snd (run trace fresh))).
Proof.
  intros [Hvalid Hsorted].
  destruct trace as [|[clock req] rest]; [constructor|].
  assert (Hvc : valid clock) by (now apply Forall_cons_iff in Hvalid).
  destruct (run_stamped ((clock, req) :: rest) clock fresh Hvc Hvalid Hsorted)
    as [last' Hst].
  - constructor. apply datetime_leb_refl.
  - constructor.
  - eapply Forall_impl; [|exact Hst]. simpl.
    intros n (c & u & Hc & Hu & Hcr & Hup & Hcu & _). split.
    + unfold StrOrder.le. now rewrite Hcr, Hup, isoformat_leb.
    + exists c, u. repeat (split; [assumption|]). assumption.
Qed.

End Timestamps.

Lemma C4_updated_at_not_before_created_at_witness :
  let body := JObj [("title", JStr "T"); ("content", JStr "C")] in
  let trace :=
    [(mkDatetime 2024 5 17 9 30 0 0, POST_notes body);
     (mkDatetime 2024 5 17 9 30 0 0, POST_notes body);
     (mkDatetime 2024 5 17 9 30 0 1, PUT_note 1 (JObj []));
     (mkDatetime 2024 11 3 0 0 0 0, DELETE_note 2);
     (mkDatetime 2025 1 1 0 0 0 0, PUT_note 1 body)] in
  monotone_clock trace /\
  Forall (fun n => StrOrder.le (created_at n) (updated_at n) /\
                   created_before_updated n)
         (rows (snd (run trace fresh))).
Proof.
  intros body trace.
  assert (Hclock : monotone_clock trace).
  { split.
    - repeat constructor; simpl; lia.
    - repeat constructor. }
  split; [exact Hclock|].
  exact (C4_updated_at_not_before_created_at trace Hclock).
Defined.

(** Without the assumption on the clock the order can fail: an update
    served at an earlier reading than the creation leaves [updated_at]
    before [created_at]. *)
Example clock_set_back_breaks_the_order :
  let body := JObj [("title", JStr "T"); ("content", JStr "C")] in
  let trace :=
    [(mkDatetime 2024 10 27 2 30 0 0, POST_notes body);
     (mkDatetime 2024 10 27 2 10 0 0, PUT_note 1 (JObj []))] in
  rows (snd (run trace fresh))
  = [mkNote 1 "T" "C" "2024-10-27T02:30:00" "2024-10-27T02:10:00"] /\
  String.ltb "2024-10-27T02:10:00" "2024-10-27T02:30:00" = true.
Proof. split; reflexivity. Qed.

(* ------------------------------------------------------------------ *)
(** ** Listing *)

Section Listing.

Import StrOrder StrOrderFacts DatetimeFacts.

Lemma insert_desc_Permutation (n : Note) (l : list Note) :
  Permutation (insert_desc n l) (n :: l).
Proof.
  induction l as [|m l IH]; simpl; [reflexivity|].
  destruct (String.leb (updated_at m) (updated_at n)); [reflexivity|].
  rewrite IH. apply perm_swap.
Qed.

Lemma insert_desc_recent_first (n : Note) (l : list Note) :
  recent_first l -> recent_first (insert_desc n l).
Proof.
  unfold recent_first. induction 1 as [|m l Hsorted IH Hall]; simpl.
  - repeat constructor.
  - destruct (String.leb (updated_at m) (updated_at n)) eqn:Hleb.
    + constructor; [now constructor|].
      constructor; [exact Hleb|].
      eapply Forall_impl; [|exact Hall]. simpl. intros k Hk.
      now apply le_trans with (updated_at m).
    + constructor; [exact IH|].
      apply (Permutation_Forall (Permutation_sym (insert_desc_Permutation n l))).
      constructor; [|exact Hall].
      now apply lt_le_incl, leb_false_lt.
Qed.

Lemma ORDER_BY_Permutation (db : database) :
  Permutation (SELECT_ORDER_BY_updated_at_DESC db) (rows db).
Proof.
  unfold SELECT_ORDER_BY_updated_at_DESC.
  induction (rows db) as [|n l IH]; simpl; [reflexivity|].
  rewrite insert_desc_Permutation. now constructor.
Qed.

Lemma ORDER_BY_recent_first (db : database) :
  recent_first (SELECT_ORDER_BY_updated_at_DESC db).
Proof.
  unfold SELECT_ORDER_BY_updated_at_DESC.
  induction (rows db) as [|n l IH]; simpl; [constructor|].
  now apply insert_desc_recent_first.
Qed.

End Listing.

Section ListingOrder.

Import StrOrder StrOrderFacts DatetimeFacts.

(** The scenario of the specification, on a fresh deployment: create,
    fetch, update the content only, delete, fetch again. *)
Example create_get_update_delete_get :
  let t1 := mkDatetime 2024 5 17 9 30 0 0 in
  let t2 := mkDatetime 2024 5 17 9 45 10 500000 in
  let trace :=
    [(t1, POST_notes (note_body "T" "C"));
     (t1, GET_note 1);
     (t2, PUT_note 1 (JObj [("content", JStr "C2")]));
     (t2, DELETE_note 1);
     (t2, GET_note 1)] in
  map snd (fst (run trace fresh))
  = [JSON_Note (mkNote 1 "T" "C" "2024-05-17T09:30:00" "2024-05-17T09:30:00");
     JSON_Note (mkNote 1 "T" "C" "2024-05-17T09:30:00" "2024-05-17T09:30:00");
     JSON_Note (mkNote 1 "T" "C2" "2024-05-17T09:30:00" "2024-05-17T09:45:10.500000");
     JSON_dict [("message", "Note deleted successfully")];
     HTTPException 404 "Note not found"] /\
  snd (run trace fresh) = mkDatabase [] 1.
Proof. split; reflexivity. Qed.

(** C6, as the code has it.  GET /notes answers with all the rows of the
    table, most recently updated first.  After creating A, B and C in that
    order in a fresh deployment and then updating A, each request being
    answered with its note, with C created at a strictly later clock reading
    than B and A updated at a reading not before the one C was created at,
    the list is A, C, B. *)
Theorem C6_list_is_most_recent_first :
  (forall db,
     exists l, get_notes db = JSON_Notes l /\
               Permutation l (rows db) /\ recent_first l) /\
  (forall (tA tB tC tU : datetime) (bodyA bodyB bodyC upd : json)
          (a b c a' : Note) (db1 db2 db3 db4 : database),
     valid tB -> valid tC -> valid tU ->
     Datetime.ltb tB tC = true -> Datetime.leb tC tU = true ->
     serve tA (POST_notes bodyA) fresh = (JSON_Note a, db1) ->
     serve tB (POST_notes bodyB) db1 = (JSON_Note b, db2) ->
     serve tC (POST_notes bodyC) db2 = (JSON_Note c, db3) ->
     serve tU (PUT_note (id a) upd) db3 = (JSON_Note a', db4) ->
     get_notes db4 = JSON_Notes [a'; c; b]).
Proof.
  split.
  - intros db. exists (SELECT_ORDER_BY_updated_at_DESC db).
    split; [reflexivity|].
    split; [apply ORDER_BY_Permutation | apply ORDER_BY_recent_first].
  - intros tA tB tC tU bodyA bodyB bodyC upd a b c a' db1 db2 db3 db4
           HvB HvC HvU HBC HCU HA HB HC HU.
    rewrite <- isoformat_ltb in HBC by assumption.
    rewrite <- isoformat_leb in HCU by assumption.
    pose proof (lt_not_le _ _ HBC) as HCB.
    destruct (POST_200 _ _ _ _ _ HA eq_refl)
      as (ta & ca & r1 & _ & _ & _ & Ha & -> & _).
    destruct (POST_200 _ _ _ _ _ HB eq_refl)
      as (tb & cb & r2 & _ & _ & _ & Hb & -> & H12).
    destruct (POST_200 _ _ _ _ _ HC eq_refl)
      as (tc & cc & r3 & _ & _ & _ & Hc & -> & H123).
    injection Ha as ->. injection Hb as ->. injection Hc as ->.
    unfold SELECT_WHERE_id in H12, H123. cbn [rows fresh init_db
      CREATE_TABLE_IF_NOT_EXISTS app find id] in H12, H123.
    destruct (Z.eqb_spec r1 r2) as [|N12]; [discriminate|].
    destruct (Z.eqb_spec r1 r3) as [|N13]; [discriminate|].
    destruct (Z.eqb_spec r2 r3) as [|N23]; [discriminate|].
    destruct (PUT_200 _ _ _ _ _ _ HU eq_refl) as (u & n & _ & Hget & Ha' & ->).
    injection Ha' as ->.
    apply get_note_found in Hget. destruct Hget as [_ Hsel].
    unfold SELECT_WHERE_id in Hsel.
    cbn [rows fresh init_db CREATE_TABLE_IF_NOT_EXISTS app find id] in Hsel.
    rewrite Z.eqb_refl in Hsel. injection Hsel as <-.
    unfold get_notes, SELECT_ORDER_BY_updated_at_DESC, UPDATE_WHERE_id.
    cbn [rows fresh init_db CREATE_TABLE_IF_NOT_EXISTS app map id title content
         created_at updated_at].
    rewrite Z.eqb_refl.
    assert (E21 : (r2 =? r1) = false) by (apply Z.eqb_neq; congruence).
    assert (E31 : (r3 =? r1) = false) by (apply Z.eqb_neq; congruence).
    rewrite E21, E31. cbn [fold_right insert_desc updated_at].
    rewrite HCB. cbn [insert_desc updated_at].
    unfold StrOrder.le in HCU. rewrite HCU. reflexivity.
Qed.

Lemma C6_list_is_most_recent_first_witness :
  let tA := mkDatetime 2024 5 17 9 30 0 0 in
  let tB := mkDatetime 2024 5 17 9 30 0 1 in
  let tC := mkDatetime 2024 5 17 9 30 1 0 in
  let tU := mkDatetime 2024 5 17 9 30 1 0 in
  let a := mkNote 1 "A" "a" "2024-05-17T09:30:00" "2024-05-17T09:30:00" in
  let b := mkNote 2 "B" "b" "2024-05-17T09:30:00.000001" "2024-05-17T09:30:00.000001" in
  let c := mkNote 3 "C" "c" "2024-05-17T09:30:01" "2024-05-17T09:30:01" in
  let a' := mkNote 1 "A" "a2" "2024-05-17T09:30:00" "2024-05-17T09:30:01" in
  get_notes (snd (run [(tA, POST_notes (note_body "A" "a"));
                       (tB, POST_notes (note_body "B" "b"));
                       (tC, POST_notes (note_body "C" "c"));
                       (tU, PUT_note 1 (JObj [("content", JStr "a2")]))] fresh))
  = JSON_Notes [a'; c; b].
Proof.
  intros tA tB tC tU a b c a'.
  apply (proj2 C6_list_is_most_recent_first tA tB tC tU
           (note_body "A" "a") (note_body "B" "b") (note_body "C" "c")
           (JObj [("content", JStr "a2")]) a b c a'
           (mkDatabase [a] 1) (mkDatabase [a; b] 2) (mkDatabase [a; b; c] 3));
    try reflexivity; unfold valid; simpl; lia.
Defined.

(** C6, as stated, fails: when B and C are created at the same clock
    reading they tie, keep the order of the table, and the list after
    updating A is A, B, C. *)
Lemma C6_same_reading_lists_A_B_C :
  let tA := mkDatetime 2024 5 17 9 30 0 0 in
  let tBC := mkDatetime 2024 5 17 9 30 0 15625 in
  let tU := mkDatetime 2024 5 17 9 30 0 31250 in
  get_notes (snd (run [(tA, POST_notes (note_body "A" "a"));
                       (tBC, POST_notes (note_body "B" "b"));
                       (tBC, POST_notes (note_body "C" "c"));
                       (tU, PUT_note 1 (JObj [("content", JStr "a2")]))] fresh))
  = JSON_Notes
      [mkNote 1 "A" "a2" "2024-05-17T09:30:00" "2024-05-17T09:30:00.031250";
       mkNote 2 "B" "b" "2024-05-17T09:30:00.015625" "2024-05-17T09:30:00.015625";
       mkNote 3 "C" "c" "2024-05-17T09:30:00.015625" "2024-05-17T09:30:00.015625"].
Proof. reflexivity. Qed.

(** Nor does it hold when the wall clock is set back between the creation
    of B and that of C: B is then the more recent of the two in every
    order by [updated_at]. *)
Example clock_set_back_lists_B_before_C :
  let tA := mkDatetime 2024 10 27 2 58 0 0 in
  let tB := mkDatetime 2024 10 27 2 59 0 0 in
  let tC := mkDatetime 2024 10 27 2 0 30 0 in
  let tU := mkDatetime 2024 10 27 2 1 0 0 in
  get_notes (snd (run [(tA, POST_notes (note_body "A" "a"));
                       (tB, POST_notes (note_body "B" "b"));
                       (tC, POST_notes (note_body "C" "c"));
                       (tU, PUT_note 1 (JObj [("content", JStr "a2")]))] fresh))
  = JSON_Notes
      [mkNote 2 "B" "b" "2024-10-27T02:59:00" "2024-10-27T02:59:00";
       mkNote 1 "A" "a2" "2024-10-27T02:58:00" "2024-10-27T02:01:00";
       mkNote 3 "C" "c" "2024-10-27T02:00:30" "2024-10-27T02:00:30"].
Proof. reflexivity. Qed.

End ListingOrder.


(* ------------------------------------------------------------------ *)
(** ** Outcomes: what fails, and what a failure leaves behind *)

Section Outcomes.

(** X2.  A request that only reads, and a request that is answered with
    anything but 200, leave the table exactly as it was: no handler writes
    before it fails. *)
Theorem X2_reads_and_failures_change_nothing (clock : datetime) (req : request)
    (db : database) :
  reads_only req = true \/ status_code (fst (serve clock req db)) <> 200 ->
  snd (serve clock req db) = db.
Proof.
  intros H. destruct req as [| |i|body|i body|i]; cbn [serve] in *;
    try reflexivity; destruct H as [H | H]; try discriminate H.
  - destruct (validate_NoteCreate body) as [note|]; [|reflexivity].
    destruct (create_note_cases clock note db) as [[_ Hfull] | [_ Hok]].
    + now rewrite Hfull.
    + rewrite Hok in H. now elim H.
  - destruct (validate_NoteUpdate body) as [u|]; [|reflexivity].
    unfold update_note in *. destruct (fits_int64 i); cbn [negb] in *;
      [|reflexivity].
    destruct (SELECT_WHERE_id i db) as [n|] eqn:Hsel; [|reflexivity].
    cbv zeta in *.
    destruct (supplied_binds (NoteUpdate_title u) &&
              supplied_binds (NoteUpdate_content u)); cbn [negb] in *;
      [|reflexivity].
    rewrite (SELECT_UPDATE_same _ _ _ i db n Hsel) in H. now elim H.
  - unfold delete_note in *. destruct (fits_int64 i); cbn [negb] in *;
      [|reflexivity].
    destruct (SELECT_WHERE_id i db) as [n|]; [|reflexivity]. now elim H.
Qed.

Lemma X2_reads_and_failures_change_nothing_witness :
  let clock := mkDatetime 2024 5 17 9 30 0 0 in
  let db := mkDatabase [mkNote 4 "T" "C" "2024-05-16T08:00:00" "2024-05-16T08:00:00"] 7 in
  snd (serve clock GET_notes db) = db /\
  snd (serve clock (PUT_note 5 (JObj [("title", JStr "x")])) db) = db /\
  snd (serve clock (DELETE_note 3) db) = db /\
  snd (serve clock (POST_notes (JObj [("title", JNum "1"); ("content", JStr "c")])) db) = db.
Proof.
  intros clock db. split; [|split; [|split]].
  - apply (X2_reads_and_failures_change_nothing clock GET_notes db).
    left. reflexivity.
  - apply (X2_reads_and_failures_change_nothing clock
             (PUT_note 5 (JObj [("title", JStr "x")])) db).
    right. vm_compute. discriminate.
  - apply (X2_reads_and_failures_change_nothing clock (DELETE_note 3) db).
    right. vm_compute. discriminate.
  - apply (X2_reads_and_failures_change_nothing clock
             (POST_notes (JObj [("title", JNum "1"); ("content", JStr "c")])) db).
    right. vm_compute. discriminate.
Defined.








End Outcomes.

(* ------------------------------------------------------------------ *)
(** ** Notes one at a time: what a request leaves alone *)

Section Frames.

Lemma targets_false (req : request) (other : Z) :
  targets req other = false ->
  match req with
  | PUT_note i _ | DELETE_note i => i <> other
  | _ => True
  end.
Proof.
  destruct req as [| |i|body|i body|i]; simpl; trivial; apply Z.eqb_neq.
Qed.

(** X6.  A request leaves every note it is not aimed at as it was: after a
    POST, after a PUT or a DELETE of another id, and after any read, a
    note that GET returned before is returned unchanged. *)
Theorem X6_requests_leave_other_notes_alone (clock : datetime) (req : request)
    (db : database) (other : Z) (n : Note) :
  get_note other db = JSON_Note n ->
  targets req other = false ->
  get_note other (snd (serve clock req db)) = JSON_Note n.
Proof.
  intros Hget Haim. apply targets_false in Haim.
  apply get_note_found in Hget. destruct Hget as [Hfit Hsel].
  apply get_note_found. split; [exact Hfit|].
  destruct req as [| |i|body|i body|i]; cbn [serve snd]; try exact Hsel.
  - destruct (validate_NoteCreate body) as [note|]; [|exact Hsel].
    destruct (create_note_cases clock note db) as [[_ ->] | [_ ->]];
      [exact Hsel|].
    unfold SELECT_WHERE_id in *. cbn [snd rows]. now apply find_app_hit.
  - destruct (validate_NoteUpdate body) as [u|]; [|exact Hsel].
    destruct (snd_update_note clock i u db) as [-> | (t & c & k & _ & ->)];
      [exact Hsel|].
    rewrite SELECT_UPDATE_other by congruence. exact Hsel.
  - destruct (snd_delete_note i db) as [-> | ->]; [exact Hsel|].
    rewrite SELECT_DELETE_other by congruence. exact Hsel.
Qed.

Lemma X6_requests_leave_other_notes_alone_witness :
  let clock := mkDatetime 2024 5 17 9 30 0 0 in
  let a := mkNote 1 "A" "a" "2024-05-16T08:00:00" "2024-05-16T08:00:00" in
  let b := mkNote 2 "B" "b" "2024-05-16T09:00:00" "2024-05-16T09:00:00" in
  let db := mkDatabase [a; b] 2 in
  get_note 2 (snd (serve clock (PUT_note 1 (note_body "A2" "a2")) db)) = JSON_Note b /\
  get_note 2 (snd (serve clock (DELETE_note 1) db)) = JSON_Note b /\
  get_note 2 (snd (serve clock (POST_notes (note_body "C" "c")) db)) = JSON_Note b.
Proof.
  intros clock a b db. split; [|split].
  - apply (X6_requests_leave_other_notes_alone clock
             (PUT_note 1 (note_body "A2" "a2")) db 2 b); reflexivity.
  - apply (X6_requests_leave_other_notes_alone clock (DELETE_note 1) db 2 b);
      reflexivity.
  - apply (X6_requests_leave_other_notes_alone clock
             (POST_notes (note_body "C" "c")) db 2 b); reflexivity.
Defined.

(** One request keeps what [X7] needs: the table stays keyed, the id stays
    at or below [seq], and the id either has no row or has one with the
    [created_at] it started with. *)
Lemma serve_keeps_created_at (created : string) (note_id : Z) (clock : datetime)
    (req : request) (db : database) :
  keyed db /\ note_id <= seq db /\
  (SELECT_WHERE_id note_id db = None \/
   exists m, SELECT_WHERE_id note_id db = Some m /\ created_at m = created) ->
  let db' := snd (serve clock req db) in
  keyed db' /\ note_id <= seq db' /\
  (SELECT_WHERE_id note_id db' = None \/
   exists m, SELECT_WHERE_id note_id db' = Some m /\ created_at m = created).
Proof.
  intros (Hk & Hle & Hrow) db'. subst db'.
  destruct (serve_keyed clock req db Hk) as (Hk' & Hseq & _).
  split; [exact Hk'|]. split; [lia|]. clear Hk' Hseq.
  destruct req as [| |i|body|i body|i]; cbn [serve snd]; try exact Hrow.
  - destruct (validate_NoteCreate body) as [note|]; [|exact Hrow].
    destruct (create_note_cases clock note db) as [[_ ->] | [_ ->]];
      [exact Hrow|].
    rewrite (keyed_largest db Hk). unfold SELECT_WHERE_id in *. cbn [snd rows].
    destruct Hrow as [Hnone | (m & Hm & Hcr)].
    + left. rewrite find_app_miss by exact Hnone. simpl.
      assert (Hf : (seq db + 1 =? note_id) = false) by (apply Z.eqb_neq; lia).
      now rewrite Hf.
    + right. exists m. split; [now apply find_app_hit | exact Hcr].
  - destruct (validate_NoteUpdate body) as [u|]; [|exact Hrow].
    destruct (snd_update_note clock i u db) as [-> | (t & c & k & Hk0 & ->)];
      [exact Hrow|].
    destruct (Z.eq_dec note_id i) as [-> | Hne].
    + right. destruct Hrow as [Hnone | (m & Hm & Hcr)]; [congruence|].
      rewrite (SELECT_UPDATE_same _ _ _ i db m Hm). eexists. split; [reflexivity|].
      exact Hcr.
    + now rewrite SELECT_UPDATE_other.
  - destruct (snd_delete_note i db) as [-> | ->]; [exact Hrow|].
    destruct (Z.eq_dec note_id i) as [-> | Hne].
    + left. apply SELECT_DELETE_same.
    + now rewrite SELECT_DELETE_other.
Qed.

(** X7.  The id and the [created_at] of a note never change: whatever
    requests a deployment serves after a GET returned a note, a later GET
    of the same id that finds a note finds one with the same id and the same
    [created_at].  (No UPDATE writes these columns, and a deleted id is not
    handed out again.) *)
Theorem X7_id_and_created_at_are_immutable (db : database) (note_id : Z)
    (n n' : Note) (trace : list (datetime * request)) :
  reachable db ->
  get_note note_id db = JSON_Note n ->
  get_note note_id (snd (run trace db)) = JSON_Note n' ->
  id n' = id n /\ created_at n' = created_at n.
Proof.
  intros Hreach Hget Hget'.
  apply reachable_keyed in Hreach.
  apply get_note_found in Hget. destruct Hget as [_ Hsel].
  apply get_note_found in Hget'. destruct Hget' as [_ Hsel'].
  assert (Hstart : keyed db /\ note_id <= seq db /\
                   (SELECT_WHERE_id note_id db = None \/
                    exists m, SELECT_WHERE_id note_id db = Some m /\
                              created_at m = created_at n)).
  { split; [exact Hreach|]. split; [|right; eauto].
    destruct (SELECT_Some _ _ _ Hsel) as [Hin <-].
    destruct Hreach as (_ & Hrows & _). rewrite Forall_forall in Hrows.
    apply Hrows in Hin. lia. }
  pose proof (run_preserves _ (serve_keeps_created_at (created_at n) note_id)
                trace db Hstart) as (_ & _ & Hend).
  destruct (SELECT_Some _ _ _ Hsel) as [_ Hid].
  destruct (SELECT_Some _ _ _ Hsel') as [_ Hid'].
  split; [congruence|].
  destruct Hend as [Hnone | (m & Hm & Hcr)]; congruence.
Qed.

Lemma X7_id_and_created_at_are_immutable_witness :
  let t1 := mkDatetime 2024 5 17 9 30 0 0 in
  let t2 := mkDatetime 2024 6 1 12 0 0 0 in
  let db := snd (run [(t1, POST_notes (note_body "T" "C"))] fresh) in
  let later := [(t2, PUT_note 1 (note_body "T2" "C2")); (t2, POST_notes (note_body "U" "V"))] in
  id (mkNote 1 "T2" "C2" "2024-05-17T09:30:00" "2024-06-01T12:00:00") = 1 /\
  created_at (mkNote 1 "T2" "C2" "2024-05-17T09:30:00" "2024-06-01T12:00:00")
  = "2024-05-17T09:30:00".
Proof.
  intros t1 t2 db later.
  apply (X7_id_and_created_at_are_immutable db 1
           (mkNote 1 "T" "C" "2024-05-17T09:30:00" "2024-05-17T09:30:00")
           (mkNote 1 "T2" "C2" "2024-05-17T09:30:00" "2024-06-01T12:00:00")
           later).
  - exists [(t1, POST_notes (note_body "T" "C"))]. reflexivity.
  - reflexivity.
  - reflexivity.
Defined.

End Frames.

(* ------------------------------------------------------------------ *)
(** ** Counting: ids in a row, and the list against the single notes *)

Section Counting.

Lemma consecutive_ids_succ (first : Z) (count : nat) :
  consecutive_ids first (S count) = first :: consecutive_ids (first + 1) count.
Proof.
  unfold consecutive_ids. cbn [List.seq map]. f_equal; [lia|].
  rewrite <- seq_shift, map_map. apply map_ext. intros k. lia.
Qed.

(** One request moves [seq] by one exactly when it hands out an id, and the
    id is the new [seq]. *)
Lemma serve_seq (clock : datetime) (req : request) (db : database) :
  keyed db ->
  match created_id (req, fst (serve clock req db)) with
  | Some i => i = seq db + 1 /\ seq (snd (serve clock req db)) = seq db + 1 /\
              seq db < max_int64
  | None => seq (snd (serve clock req db)) = seq db
  end.
Proof.
  intros Hk. destruct req as [| |i|body|i body|i]; cbn [serve];
    try reflexivity.
  - destruct (validate_NoteCreate body) as [note|]; [|reflexivity].
    destruct (create_note_cases clock note db) as [[_ ->] | [Hroom ->]];
      [reflexivity|].
    rewrite (keyed_largest db Hk) in *. cbn. auto.
  - destruct (validate_NoteUpdate body) as [u|]; [|reflexivity].
    destruct (snd_update_note clock i u db) as [Hsame | (t & c & k & _ & Hupd)].
    + rewrite Hsame. destruct (fst (update_note clock i u db)); reflexivity.
    + rewrite Hupd. destruct (fst (update_note clock i u db)); reflexivity.
  - destruct (snd_delete_note i db) as [Hsame | Hdel].
    + rewrite Hsame. destruct (fst (delete_note i db)); reflexivity.
    + rewrite Hdel. destruct (fst (delete_note i db)); reflexivity.
Qed.

Lemma run_consecutive (trace : list (datetime * request)) :
  forall db,
    keyed db ->
    let ids := assigned_ids (fst (run trace db)) in
    ids = consecutive_ids (seq db + 1) (List.length ids) /\
    seq (snd (run trace db)) = seq db + Z.of_nat (List.length ids) /\
    (seq db <= max_int64 -> seq (snd (run trace db)) <= max_int64).
Proof.
  induction trace as [|[clock req] rest IH]; intros db Hk.
  - cbn. repeat split; lia.
  - cbv zeta. rewrite run_cons. cbn [fst snd assigned_ids].
    destruct (serve_keyed clock req db Hk) as (Hk' & _ & _).
    pose proof (serve_seq clock req db Hk) as Hseq.
    specialize (IH _ Hk'). cbv zeta in IH. destruct IH as (Hids & Hend & Hmax).
    destruct (created_id (req, fst (serve clock req db))) as [i|].
    + destruct Hseq as (-> & Hseq & Hroom). rewrite Hseq in *.
      cbn [List.length]. rewrite consecutive_ids_succ. split; [|split].
      * f_equal. exact Hids.
      * rewrite Hend. lia.
      * intros _. apply Hmax. lia.
    + rewrite Hseq in *. split; [exact Hids|]. split; [exact Hend | exact Hmax].
Qed.

(** X8.  In a fresh deployment the ids come out in a row from 1: the k-th
    POST that is answered 200 gets id k, whatever other requests are served
    and whatever is deleted in between, and the key sequence equals the
    number of notes ever created. *)
Theorem X8_ids_are_consecutive_from_one (trace : list (datetime * request)) :
  let ids := assigned_ids (fst (run trace fresh)) in
  ids = consecutive_ids 1 (List.length ids) /\
  seq (snd (run trace fresh)) = Z.of_nat (List.length ids).
Proof.
  destruct (run_consecutive trace fresh keyed_fresh) as (Hids & Hend & _).
  cbv zeta in *. split; [exact Hids | exact Hend].
Qed.

Lemma reachable_seq_in_range (db : database) :
  reachable db -> seq db <= max_int64.
Proof.
  intros [trace <-].
  destruct (run_consecutive trace fresh keyed_fresh) as (_ & _ & Hmax).
  apply Hmax. vm_compute. discriminate.
Qed.

(** With distinct ids, the row found by the id of a row is that row. *)
Lemma SELECT_row (db : database) (n : Note) :
  NoDup (map id (rows db)) -> In n (rows db) ->
  SELECT_WHERE_id (id n) db = Some n.
Proof.
  unfold SELECT_WHERE_id. induction (rows db) as [|m table IH]; simpl; [tauto|].
  intros Hnd Hin. apply NoDup_cons_iff in Hnd. destruct Hnd as [Hfresh Hnd].
  destruct Hin as [-> | Hin]; [now rewrite Z.eqb_refl|].
  destruct (Z.eqb_spec (id m) (id n)) as [Heq | _]; [|auto].
  elim Hfresh. rewrite Heq. now apply in_map.
Qed.

(** X9.  In every state a deployment reaches, GET /notes and GET
    /notes/{id} tell the same story: a note is in the list exactly when GET
    of its id returns that very note, no id occurs twice in the list, and
    the list has as many entries as the table has rows. *)
Theorem X9_list_agrees_with_get (db : database) :
  reachable db ->
  exists l,
    get_notes db = JSON_Notes l /\
    (forall n, In n l <-> get_note (id n) db = JSON_Note n) /\
    NoDup (map id l) /\
    List.length l = List.length (rows db).
Proof.
  intros Hreach. pose proof (reachable_seq_in_range db Hreach) as Hmax.
  apply reachable_keyed in Hreach. destruct Hreach as (Hseq & Hrows & Hnd).
  pose proof (ORDER_BY_Permutation db) as Hperm.
  exists (SELECT_ORDER_BY_updated_at_DESC db). split; [reflexivity|].
  split; [|split].
  - intros n. split.
    + intros Hin. apply (Permutation_in _ Hperm) in Hin.
      apply get_note_found. split; [|now apply SELECT_row].
      rewrite Forall_forall in Hrows. apply Hrows in Hin.
      apply fits_int64_rowid. lia.
    + intros Hget. apply get_note_found in Hget. destruct Hget as [_ Hsel].
      apply SELECT_Some in Hsel. destruct Hsel as [Hin _].
      now apply (Permutation_in _ (Permutation_sym Hperm)).
  - apply (Permutation_NoDup (Permutation_map id (Permutation_sym Hperm))).
    exact Hnd.
  - now apply Permutation_length.
Qed.

Lemma X9_list_agrees_with_get_witness :
  let t1 := mkDatetime 2024 5 17 9 30 0 0 in
  let t2 := mkDatetime 2024 6 1 12 0 0 0 in
  let db := snd (run [(t1, POST_notes (note_body "A" "a"));
                      (t2, POST_notes (note_body "B" "b"))] fresh) in
  exists l,
    get_notes db = JSON_Notes l /\
    (forall n, In n l <-> get_note (id n) db = JSON_Note n) /\
    NoDup (map id l) /\
    List.length l = List.length (rows db).
Proof.
  intros t1 t2 db. apply (X9_list_agrees_with_get db).
  exists [(t1, POST_notes (note_body "A" "a")); (t2, POST_notes (note_body "B" "b"))].
  reflexivity.
Defined.

(** Deleting by an id that exactly one row has removes exactly one row. *)
Lemma DELETE_one_row (note_id : Z) (db : database) (n : Note) :
  NoDup (map id (rows db)) ->
  SELECT_WHERE_id note_id db = Some n ->
  S (List.length (rows (DELETE_WHERE_id note_id db))) = List.length (rows db).
Proof.
  unfold SELECT_WHERE_id, DELETE_WHERE_id. cbn [rows].
  induction (rows db) as [|m table IH]; simpl; [discriminate|].
  intros Hnd Hsel. apply NoDup_cons_iff in Hnd. destruct Hnd as [Hfresh Hnd].
  destruct (Z.eqb_spec (id m) note_id) as [Heq | Hne]; simpl.
  - f_equal. f_equal. apply forallb_filter_id.
    apply forallb_forall. intros k Hin. apply negb_true_iff, Z.eqb_neq.
    intros Hk. apply Hfresh. rewrite Heq, <- Hk. now apply in_map.
  - f_equal. now apply IH.
Qed.

(** X14.  In every state a deployment reaches, a request answered 200
    changes the number of notes GET /notes lists by exactly this much: a
    POST adds one, a DELETE takes one away, and every other request leaves
    the number as it is. *)
Theorem X14_note_count (clock : datetime) (req : request) (db : database) :
  reachable db ->
  status_code (fst (serve clock req db)) = 200 ->
  exists l l',
    get_notes db = JSON_Notes l /\
    get_notes (snd (serve clock req db)) = JSON_Notes l' /\
    match req with
    | POST_notes _ => List.length l' = S (List.length l)
    | DELETE_note _ => S (List.length l') = List.length l
    | _ => List.length l' = List.length l
    end.
Proof.
  intros Hreach H200. apply reachable_keyed in Hreach.
  destruct Hreach as (_ & _ & Hnd).
  exists (SELECT_ORDER_BY_updated_at_DESC db),
         (SELECT_ORDER_BY_updated_at_DESC (snd (serve clock req db))).
  split; [reflexivity|]. split; [reflexivity|].
  rewrite !(Permutation_length (ORDER_BY_Permutation _)).
  destruct req as [| |i|body|i body|i]; cbn [serve snd fst] in *;
    try reflexivity.
  - destruct (validate_NoteCreate body) as [note|]; [|discriminate].
    destruct (create_note_cases clock note db) as [[_ Hfull] | [_ Hok]].
    + rewrite Hfull in H200. discriminate.
    + rewrite Hok. cbn [snd rows]. rewrite List.length_app. simpl. lia.
  - destruct (validate_NoteUpdate body) as [u|]; [|discriminate].
    destruct (snd_update_note clock i u db) as [-> | (t & c & k & _ & ->)];
      [reflexivity|].
    unfold UPDATE_WHERE_id. cbn [rows]. apply List.length_map.
  - unfold delete_note in *. destruct (fits_int64 i); cbn [negb] in *;
      [|discriminate].
    destruct (SELECT_WHERE_id i db) as [n|] eqn:Hsel; [|discriminate].
    cbn [snd]. now apply DELETE_one_row with n.
Qed.

Lemma X14_note_count_witness :
  let t1 := mkDatetime 2024 5 17 9 30 0 0 in
  let db := snd (run [(t1, POST_notes (note_body "A" "a"));
                      (t1, POST_notes (note_body "B" "b"))] fresh) in
  exists l l',
    get_notes db = JSON_Notes l /\
    get_notes (snd (serve t1 (DELETE_note 1) db)) = JSON_Notes l' /\
    S (List.length l') = List.length l.
Proof.
  intros t1 db.
  apply (X14_note_count t1 (DELETE_note 1) db).
  - exists [(t1, POST_notes (note_body "A" "a")); (t1, POST_notes (note_body "B" "b"))].
    reflexivity.
  - reflexivity.
Defined.

End Counting.

(* ------------------------------------------------------------------ *)
(** ** Time: the stored strings against the clock *)

Section Time.

Import StrOrder StrOrderFacts DatetimeFacts.

Lemma datetime_compare_eq (a b : datetime) :
  Datetime.compare a b = Eq -> a = b.
Proof.
  destruct a as [y m d h mi s us], b as [y' m' d' h' mi' s' us'].
  unfold Datetime.compare, lex. cbn [year month day hour minute second microsecond].
  destruct (Z.compare_spec y y'); try discriminate.
  destruct (Z.compare_spec m m'); try discriminate.
  destruct (Z.compare_spec d d'); try discriminate.
  destruct (Z.compare_spec h h'); try discriminate.
  destruct (Z.compare_spec mi mi'); try discriminate.
  destruct (Z.compare_spec s s'); try discriminate.
  destruct (Z.compare_spec us us'); try discriminate.
  intros _. congruence.
Qed.

(** X1.  The ISO strings the handlers store stand for the clock readings
    faithfully: on datetimes, two strings compare byte-wise (the way ORDER BY
    compares them) exactly as the readings compare in time, and equal
    strings come from equal readings. *)
Theorem X1_iso_strings_order_as_time (a b : datetime) :
  valid a -> valid b ->
  String.compare (isoformat a) (isoformat b) = Datetime.compare a b /\
  (isoformat a = isoformat b -> a = b).
Proof.
  intros Ha Hb. split; [now apply isoformat_compare|].
  intros Heq. apply datetime_compare_eq.
  rewrite <- (isoformat_compare a b Ha Hb), Heq. apply compare_refl.
Qed.

Lemma X1_iso_strings_order_as_time_witness :
  let a := mkDatetime 2024 5 17 9 30 0 0 in
  let b := mkDatetime 2024 5 17 9 30 0 1 in
  String.compare "2024-05-17T09:30:00" "2024-05-17T09:30:00.000001" = Lt /\
  (isoformat a = isoformat b -> a = b).
Proof.
  intros a b. apply (X1_iso_strings_order_as_time a b); unfold valid; simpl; lia.
Defined.

(** Whatever holds of the ISO string of the reading and of every stored
    [updated_at] still holds of every stored [updated_at] after a request:
    a request writes no other value there. *)
Lemma serve_updated_at (P : string -> Prop) (clock : datetime) (req : request)
    (db : database) :
  P (isoformat clock) ->
  Forall (fun n => P (updated_at n)) (rows db) ->
  Forall (fun n => P (updated_at n)) (rows (snd (serve clock req db))).
Proof.
  intros Hnow Hold.
  destruct req as [| |i|body|i body|i]; cbn [serve snd]; try exact Hold.
  - destruct (validate_NoteCreate body) as [note|]; [|exact Hold].
    destruct (create_note_cases clock note db) as [[_ ->] | [_ ->]];
      [exact Hold|].
    cbn [snd rows]. apply Forall_app. split; [exact Hold|].
    constructor; [exact Hnow | constructor].
  - destruct (validate_NoteUpdate body) as [u|]; [|exact Hold].
    destruct (snd_update_note clock i u db) as [-> | (t & c & k & _ & ->)];
      [exact Hold|].
    unfold UPDATE_WHERE_id. cbn [rows]. apply Forall_map.
    eapply Forall_impl; [|exact Hold]. simpl. intros m Hm.
    now destruct (id m =? i).
  - destruct (snd_delete_note i db) as [-> | ->]; [exact Hold|].
    unfold DELETE_WHERE_id. cbn [rows].
    apply Forall_forall. intros m Hin. apply filter_In in Hin.
    rewrite Forall_forall in Hold. now apply Hold.
Qed.

Lemma run_updated_at (P : string -> Prop) (trace : list (datetime * request)) :
  forall db,
    Forall (fun t => P (isoformat t)) (map fst trace) ->
    Forall (fun n => P (updated_at n)) (rows db) ->
    Forall (fun n => P (updated_at n)) (rows (snd (run trace db))).
Proof.
  induction trace as [|[clock req] rest IH]; intros db Hclocks Hrows.
  - exact Hrows.
  - rewrite run_cons. cbn [snd]. cbn [map fst] in Hclocks.
    apply Forall_cons_iff in Hclocks. destruct Hclocks as [Hnow Hclocks].
    apply IH; [exact Hclocks|]. now apply serve_updated_at.
Qed.

(** X11.  [updated_at] does not go back when the clock does not: if a PUT
    is served at a reading that is not before any reading of the requests
    served so far, the [updated_at] it answers with is not before the one
    the note had. *)
Theorem X11_updated_at_does_not_go_back (trace : list (datetime * request))
    (clock : datetime) (note_id : Z) (body : json) (n n' : Note) (db' : database) :
  valid clock ->
  Forall valid (map fst trace) ->
  Forall (fun t => Datetime.leb t clock = true) (map fst trace) ->
  get_note note_id (snd (run trace fresh)) = JSON_Note n ->
  serve clock (PUT_note note_id body) (snd (run trace fresh)) = (JSON_Note n', db') ->
  StrOrder.le (updated_at n) (updated_at n') /\ updated_at n' = isoformat clock.
Proof.
  intros Hvc Hvalid Hleb Hget Hput.
  assert (Hrows : Forall (fun m => StrOrder.le (updated_at m) (isoformat clock))
                         (rows (snd (run trace fresh)))).
  { apply (run_updated_at (fun s => StrOrder.le s (isoformat clock)));
      [|constructor].
    rewrite Forall_forall in *. intros t Hin. unfold StrOrder.le.
    rewrite isoformat_leb; auto. }
  destruct (PUT_200 _ _ _ _ _ _ Hput eq_refl) as (u & n0 & _ & _ & Hn' & _).
  injection Hn' as ->. cbn [updated_at]. split; [|reflexivity].
  apply get_note_found in Hget. destruct Hget as [_ Hsel].
  apply SELECT_Some in Hsel. destruct Hsel as [Hin _].
  rewrite Forall_forall in Hrows. now apply Hrows.
Qed.

Lemma X11_updated_at_does_not_go_back_witness :
  let t1 := mkDatetime 2024 5 17 9 30 0 0 in
  let t2 := mkDatetime 2024 5 17 9 31 0 0 in
  let trace := [(t1, POST_notes (note_body "T" "C"))] in
  StrOrder.le "2024-05-17T09:30:00" "2024-05-17T09:31:00" /\
  "2024-05-17T09:31:00" = isoformat t2.
Proof.
  intros t1 t2 trace.
  apply (X11_updated_at_does_not_go_back trace t2 1 (JObj [])
           (mkNote 1 "T" "C" "2024-05-17T09:30:00" "2024-05-17T09:30:00")
           (mkNote 1 "T" "C" "2024-05-17T09:30:00" "2024-05-17T09:31:00")
           (snd (serve t2 (PUT_note 1 (JObj [])) (snd (run trace fresh))))).
  - unfold valid; simpl; lia.
  - repeat constructor; simpl; lia.
  - repeat constructor.
  - reflexivity.
  - reflexivity.
Defined.

(** The head of a most-recent-first arrangement: a note that is strictly
    more recent than every other one comes first. *)
Lemma most_recent_is_first (n : Note) (table l : list Note) :
  recent_first l -> Permutation l table -> In n table ->
  Forall (fun m => m = n \/ StrOrder.lt (updated_at m) (updated_at n)) table ->
  exists rest, l = n :: rest.
Proof.
  intros Hsorted Hperm Hin Hothers.
  destruct l as [|h rest].
  - apply Permutation_nil in Hperm. subst. contradiction.
  - exists rest. f_equal.
    assert (Hh : In h table) by (apply (Permutation_in _ Hperm); now left).
    rewrite Forall_forall in Hothers.
    destruct (Hothers h Hh) as [Heq | Hlt]; [exact Heq|].
    apply (Permutation_in _ (Permutation_sym Hperm)) in Hin.
    destruct Hin as [Heq | Hrest]; [exact Heq|].
    apply StronglySorted_inv in Hsorted. destruct Hsorted as [_ Hall].
    rewrite Forall_forall in Hall. apply Hall in Hrest.
    apply lt_not_le in Hlt. unfold StrOrder.le in Hrest. congruence.
Qed.

(** X12.  The note just written heads the list.  In a deployment, when a
    POST or a PUT is served at a reading strictly later than the readings of
    all requests served before and is answered with a note, the next GET
    /notes starts with that note. *)
Theorem X12_written_note_heads_the_list (trace : list (datetime * request))
    (clock : datetime) (req : request) (n : Note) (db' : database) :
  valid clock ->
  Forall valid (map fst trace) ->
  Forall (fun t => Datetime.ltb t clock = true) (map fst trace) ->
  reads_only req = false ->
  serve clock req (snd (run trace fresh)) = (JSON_Note n, db') ->
  exists rest, get_notes db' = JSON_Notes (n :: rest).
Proof.
  intros Hvc Hvalid Hltb Hwrite Hserve.
  set (db := snd (run trace fresh)) in *.
  assert (Hrows : Forall (fun m => StrOrder.lt (updated_at m) (isoformat clock))
                         (rows db)).
  { apply (run_updated_at (fun s => StrOrder.lt s (isoformat clock)));
      [|constructor].
    rewrite Forall_forall in *. intros t Hin. unfold StrOrder.lt.
    rewrite isoformat_ltb; auto. }
  assert (Hk : keyed db) by (apply run_keyed, keyed_fresh).
  assert (Hin : In n (rows db') /\
                Forall (fun m => m = n \/
                                 StrOrder.lt (updated_at m) (updated_at n))
                       (rows db')).
  { destruct req as [| |i|body|i body|i]; try discriminate Hwrite.
    - destruct (POST_200 _ _ _ _ _ Hserve eq_refl)
        as (t & c & rowid & _ & _ & _ & Hn & -> & _).
      injection Hn as ->. cbn [rows updated_at]. split.
      + apply in_or_app. right. now left.
      + apply Forall_app. split.
        * eapply Forall_impl; [|exact Hrows]. simpl. auto.
        * constructor; [now left | constructor].
    - destruct (PUT_200 _ _ _ _ _ _ Hserve eq_refl)
        as (u & k & _ & Hget & Hn & ->).
      injection Hn as ->. apply get_note_found in Hget.
      destruct Hget as [_ Hsel]. destruct (SELECT_Some _ _ _ Hsel) as [Hk_in Hk_id].
      unfold UPDATE_WHERE_id. cbn [rows updated_at]. split.
      + apply in_map_iff. exists k. split; [|exact Hk_in].
        apply Z.eqb_eq in Hk_id. now rewrite Hk_id.
      + apply Forall_map. rewrite Forall_forall in *. intros m Hm.
        destruct (Z.eqb_spec (id m) i) as [Heq | Hne].
        * left. destruct Hk as (_ & _ & Hnd).
          pose proof (SELECT_row db m Hnd Hm) as Hsel_m.
          rewrite Heq, Hsel in Hsel_m. injection Hsel_m as ->. reflexivity.
        * right. now apply Hrows.
    - cbn [serve] in Hserve. unfold delete_note in Hserve.
      destruct (fits_int64 i); cbn [negb] in Hserve; [|discriminate].
      destruct (SELECT_WHERE_id i db); discriminate. }
  destruct Hin as [Hin Hothers].
  destruct (most_recent_is_first n (rows db') (SELECT_ORDER_BY_updated_at_DESC db')
              (ORDER_BY_recent_first db') (ORDER_BY_Permutation db') Hin Hothers)
    as [rest Hrest].
  exists rest. unfold get_notes. now rewrite Hrest.
Qed.

Lemma X12_written_note_heads_the_list_witness :
  let t1 := mkDatetime 2024 5 17 9 30 0 0 in
  let t2 := mkDatetime 2024 5 17 9 30 0 1 in
  let t3 := mkDatetime 2024 5 18 0 0 0 0 in
  let trace := [(t1, POST_notes (note_body "A" "a")); (t2, POST_notes (note_body "B" "b"))] in
  let req := PUT_note 1 (JObj [("title", JStr "A2")]) in
  exists rest,
    get_notes (snd (serve t3 req (snd (run trace fresh))))
    = JSON_Notes (mkNote 1 "A2" "a" "2024-05-17T09:30:00" "2024-05-18T00:00:00" :: rest).
Proof.
  intros t1 t2 t3 trace req.
  apply (X12_written_note_heads_the_list trace t3 req).
  - unfold valid; simpl; lia.
  - repeat constructor; simpl; lia.
  - repeat constructor.
  - reflexivity.
  - reflexivity.
Defined.

End Time.

(* ------------------------------------------------------------------ *)
(** ** Repetition: the same PUT again *)

Section Repetition.

Lemma merged_twice (supplied : option string) (stored : string) :
  merged supplied (merged supplied stored) = merged supplied stored.
Proof. now destruct supplied. Qed.

(** A second UPDATE of the same id overwrites the first. *)
Lemma UPDATE_twice (t c u u' : string) (note_id : Z) (db : database) :
  UPDATE_WHERE_id t c u' note_id (UPDATE_WHERE_id t c u note_id db)
  = UPDATE_WHERE_id t c u' note_id db.
Proof.
  unfold UPDATE_WHERE_id. cbn [rows seq]. f_equal.
  rewrite map_map. apply map_ext. intros m.
  destruct (id m =? note_id) eqn:Hid; cbn [id created_at]; now rewrite Hid.
Qed.

(** X10.  PUT is idempotent.  Once a PUT has been answered 200, serving
    the same PUT again gives the answer and the table that serving it once,
    at the reading of the second, would have given: title and content
    settle after the first, and only [updated_at] follows the clock. *)
Theorem X10_put_is_idempotent (clock1 clock2 : datetime) (note_id : Z)
    (body : json) (db db1 : database) (n1 : Note) :
  serve clock1 (PUT_note note_id body) db = (JSON_Note n1, db1) ->
  serve clock2 (PUT_note note_id body) db1
  = serve clock2 (PUT_note note_id body) db /\
  exists n2 db2,
    serve clock2 (PUT_note note_id body) db1 = (JSON_Note n2, db2) /\
    title n2 = title n1 /\ content n2 = content n1 /\
    created_at n2 = created_at n1 /\ updated_at n2 = isoformat clock2.
Proof.
  intros Hfirst.
  destruct (PUT_200 _ _ _ _ _ _ Hfirst eq_refl) as (u & n & Hval & Hget & Hn1 & ->).
  injection Hn1 as ->.
  pose proof (get_note_after_update clock1 note_id
                (merged (NoteUpdate_title u) (title n))
                (merged (NoteUpdate_content u) (content n)) db n Hget) as Hget1.
  assert (Hbinds : supplied_binds (NoteUpdate_title u) &&
                   supplied_binds (NoteUpdate_content u) = true).
  { cbn [serve] in Hfirst. rewrite Hval in Hfirst.
    now apply (update_note_200_binds _ _ _ _ _ _ Hfirst). }
  rewrite (PUT_found clock2 note_id body _ u _ Hval Hbinds Hget1).
  rewrite (PUT_found clock2 note_id body _ u _ Hval Hbinds Hget).
  cbn [id title content created_at]. rewrite !merged_twice, UPDATE_twice.
  split; [reflexivity|]. do 2 eexists. split; [reflexivity|].
  cbn [title content created_at updated_at]. auto.
Qed.

Lemma X10_put_is_idempotent_witness :
  let t1 := mkDatetime 2024 5 17 9 30 0 0 in
  let t2 := mkDatetime 2024 5 18 0 0 0 0 in
  let db := mkDatabase [mkNote 1 "T" "C" "2024-05-16T08:00:00" "2024-05-16T08:00:00"] 1 in
  let body := JObj [("content", JStr "C2")] in
  let n1 := mkNote 1 "T" "C2" "2024-05-16T08:00:00" "2024-05-17T09:30:00" in
  let db1 := snd (serve t1 (PUT_note 1 body) db) in
  serve t2 (PUT_note 1 body) db1 = serve t2 (PUT_note 1 body) db /\
  exists n2 db2,
    serve t2 (PUT_note 1 body) db1 = (JSON_Note n2, db2) /\
    title n2 = "T" /\ content n2 = "C2" /\
    created_at n2 = "2024-05-16T08:00:00" /\ updated_at n2 = isoformat t2.
Proof.
  intros t1 t2 db body n1 db1.
  apply (X10_put_is_idempotent t1 t2 1 body db db1 n1). reflexivity.
Defined.

End Repetition.

(* ------------------------------------------------------------------ *)
(** ** Acceptance of a POST, and the list after a DELETE *)

Section AcceptanceAndRemoval.

Import StrOrder StrOrderFacts.



(** Dropping rows from a most-recent-first arrangement and then putting a
    note in its place is putting it in place and then dropping. *)
Lemma filter_insert_desc (keep : Note -> bool) (n : Note) (l : list Note) :
  recent_first l ->
  filter keep (insert_desc n l)
  = if keep n then insert_desc n (filter keep l) else filter keep l.
Proof.
  unfold recent_first. induction 1 as [|m l Hsorted IH Hall].
  - simpl. now destruct (keep n).
  - cbn [insert_desc].
    destruct (String.leb (updated_at m) (updated_at n)) eqn:Hleb.
    + cbn [filter]. destruct (keep n); [|reflexivity].
      assert (Hkept : Forall (fun k => StrOrder.le (updated_at k) (updated_at n))
                             (filter keep (m :: l))).
      { apply Forall_forall. intros k Hk. apply filter_In in Hk.
        destruct Hk as [[<- | Hk] _]; [exact Hleb|].
        rewrite Forall_forall in Hall.
        apply le_trans with (updated_at m); [now apply Hall | exact Hleb]. }
      cbn [filter] in Hkept |- *.
      destruct (filter keep l) as [|k rest] eqn:Hrest;
        destruct (keep m); cbn [insert_desc]; try reflexivity.
      * now rewrite Hleb.
      * now rewrite Hleb.
      * apply Forall_inv in Hkept. unfold StrOrder.le in Hkept. now rewrite Hkept.
    + cbn [filter]. rewrite IH.
      destruct (keep m), (keep n); cbn [insert_desc]; try reflexivity.
      now rewrite Hleb.
Qed.

Lemma ORDER_BY_filter (keep : Note -> bool) (table : list Note) (s : Z) :
  SELECT_ORDER_BY_updated_at_DESC (mkDatabase (filter keep table) s)
  = filter keep (SELECT_ORDER_BY_updated_at_DESC (mkDatabase table s)).
Proof.
  unfold SELECT_ORDER_BY_updated_at_DESC. cbn [rows].
  induction table as [|m table IH]; [reflexivity|].
  cbn [filter fold_right].
  rewrite filter_insert_desc
    by (apply (ORDER_BY_recent_first (mkDatabase table s))).
  destruct (keep m); cbn [fold_right]; now rewrite IH.
Qed.

(** X15.  A DELETE takes its note out of the list and moves nothing else:
    after a DELETE answered 200, GET /notes answers with the list it
    answered with before, without the notes of the deleted id, in the same
    order. *)
Theorem X15_delete_keeps_the_order_of_the_rest (clock : datetime) (note_id : Z)
    (db : database) :
  status_code (fst (serve clock (DELETE_note note_id) db)) = 200 ->
  exists l,
    get_notes db = JSON_Notes l /\
    get_notes (snd (serve clock (DELETE_note note_id) db))
    = JSON_Notes (filter (fun n => negb (id n =? note_id)) l).
Proof.
  intros H200. exists (SELECT_ORDER_BY_updated_at_DESC db).
  split; [reflexivity|]. cbn [serve] in *. unfold delete_note in *.
  destruct (fits_int64 note_id); cbn [negb] in *; [|discriminate].
  destruct (SELECT_WHERE_id note_id db); [|discriminate].
  cbn [snd]. unfold get_notes, DELETE_WHERE_id. f_equal.
  rewrite ORDER_BY_filter. now destruct db.
Qed.

Lemma X15_delete_keeps_the_order_of_the_rest_witness :
  let t1 := mkDatetime 2024 5 17 9 30 0 0 in
  let t2 := mkDatetime 2024 5 17 9 31 0 0 in
  let t3 := mkDatetime 2024 5 17 9 32 0 0 in
  let db := snd (run [(t1, POST_notes (note_body "A" "a"));
                      (t2, POST_notes (note_body "B" "b"));
                      (t3, POST_notes (note_body "C" "c"))] fresh) in
  exists l,
    get_notes db = JSON_Notes l /\
    get_notes (snd (serve t3 (DELETE_note 2) db))
    = JSON_Notes (filter (fun n => negb (id n =? 2)) l).
Proof.
  intros t1 t2 t3 db.
  apply (X15_delete_keeps_the_order_of_the_rest t3 2 db). reflexivity.
Defined.

End AcceptanceAndRemoval.

(* ------------------------------------------------------------------ *)
(** ** Stored strings *)

Section StoredStrings.

Lemma merged_binds (supplied : option string) (stored : string) :
  supplied_binds supplied = true -> has_surrogate stored = false ->
  has_surrogate (merged supplied stored) = false.
Proof.
  destruct supplied as [s|]; cbn [supplied_binds merged]; [|auto].
  unfold binds_as_text. intros H _. now apply negb_true_iff in H.
Qed.

(** One request keeps the titles and contents of the table free of
    surrogates. *)
Lemma serve_rows_bind (clock : datetime) (req : request) (db : database) :
  Forall (fun n => has_surrogate (title n) = false /\
                   has_surrogate (content n) = false) (rows db) ->
  Forall (fun n => has_surrogate (title n) = false /\
                   has_surrogate (content n) = false)
         (rows (snd (serve clock req db))).
Proof.
  intros Hrows. destruct req as [| |i|body|i body|i]; cbn [serve snd];
    try exact Hrows.
  - destruct (validate_NoteCreate body) as [note|]; [|exact Hrows].
    destruct (create_note_cases clock note db) as [[_ Hfail] | [_ Hok]];
      [now rewrite Hfail|].
    destruct (create_note_binds _ _ _ _ _ Hok) as [Ht Hc].
    rewrite Hok. cbn [snd rows]. apply Forall_app. split; [exact Hrows|].
    constructor; [|constructor]. cbn [title content].
    unfold binds_as_text in Ht, Hc. split; now apply negb_true_iff.
  - destruct (validate_NoteUpdate body) as [u|]; [|exact Hrows].
    unfold update_note. destruct (fits_int64 i); cbn [negb]; [|exact Hrows].
    destruct (SELECT_WHERE_id i db) as [n|] eqn:Hsel; [|exact Hrows].
    cbv zeta.
    destruct (supplied_binds (NoteUpdate_title u) &&
              supplied_binds (NoteUpdate_content u)) eqn:Hbinds; cbn [negb];
      [|exact Hrows].
    apply andb_true_iff in Hbinds. destruct Hbinds as [Ht Hc].
    rewrite (SELECT_UPDATE_same _ _ _ i db n Hsel). cbn [snd].
    apply SELECT_Some in Hsel. destruct Hsel as [Hin _].
    pose proof Hrows as Hall. rewrite Forall_forall in Hall.
    destruct (Hall n Hin) as [Hnt Hnc].
    unfold UPDATE_WHERE_id. cbn [rows]. apply Forall_map.
    eapply Forall_impl; [|exact Hrows]. simpl. intros m Hm.
    destruct (id m =? i); [|exact Hm]. cbn [title content].
    split; [exact (merged_binds _ _ Ht Hnt) | exact (merged_binds _ _ Hc Hnc)].
  - destruct (snd_delete_note i db) as [-> | ->]; [exact Hrows|].
    unfold DELETE_WHERE_id. cbn [rows].
    apply Forall_forall. intros m Hin. apply filter_In in Hin.
    rewrite Forall_forall in Hrows. now apply Hrows.
Qed.

(** In every state a deployment reaches, no stored title or content holds
    a surrogate: whatever [update_note] takes from the table can be bound
    again, and only a string of the request can make its UPDATE raise. *)
Lemma reachable_rows_bind (db : database) (n : Note) :
  reachable db -> In n (rows db) ->
  binds_as_text (title n) = true /\ binds_as_text (content n) = true.
Proof.
  intros [trace <-] Hin.
  assert (Hall : Forall (fun m => has_surrogate (title m) = false /\
                                  has_surrogate (content m) = false)
                        (rows (snd (run trace fresh)))).
  { apply (run_preserves _ (fun clock req db0 => serve_rows_bind clock req db0)).
    constructor. }
  rewrite Forall_forall in Hall. destruct (Hall n Hin) as [Ht Hc].
  unfold binds_as_text. now rewrite Ht, Hc.
Qed.

End StoredStrings.
